(** * wmsget.geom: the Dimension Resolver and the Polygon Tiler

    A shallow embedding of [src/wmsget/geom.py] ([get_dims] and
    [split_geom]) and the properties of the design document that can be
    decided on it.

    Conventions of the embedding.
    - Python numbers (bounds, resolutions, areas) are exact rationals [Q];
      Python [int]s are [Z].  Rounding error of binary floating point is not
      modelled; every concrete input used below is a dyadic rational, so it
      is the same number in Python.
    - A Python call is modelled with its binding of positional and keyword
      arguments to the parameter names of the callee, because [split_geom]
      forwards [**kwargs] and [get_dims] calls itself by keyword.
    - A computation yields an [outcome]: a value, a raised exception, or
      [OutOfFuel] when the recursion budget of the model is exhausted.
    - shapely/geopandas are an injected capability: a type class whose
      operations the tiler calls.  A small instance on axis-aligned boxes is
      given to run the tiler on concrete inputs. *)

From Stdlib Require Import ZArith QArith Qround List String Bool Lia.
Import ListNotations.

Local Open Scope Z_scope.
Local Open Scope Q_scope.

(** ** Outcomes of a Python computation *)

Inductive exn : Type :=
| TypeError
| ValueError
| ZeroDivisionError
| UnboundLocalError.

Inductive outcome (A : Type) : Type :=
| Ok (a : A)
| Raise (e : exn)
| OutOfFuel.

Arguments Ok {A} a.
Arguments Raise {A} e.
Arguments OutOfFuel {A}.

Definition bind {A B : Type} (m : outcome A) (k : A -> outcome B) : outcome B :=
  match m with
  | Ok a => k a
  | Raise e => Raise e
  | OutOfFuel => OutOfFuel
  end.

Notation "x <- m ;; k" := (bind m (fun x => k))
  (at level 61, m at next level, right associativity).
Notation "' p <- m ;; k" := (bind m (fun x => let 'p := x in k))
  (at level 61, p pattern, m at next level, right associativity).

Definition returns {A : Type} (m : outcome A) : Prop := exists a, m = Ok a.

Definition raises {A : Type} (m : outcome A) : Prop := exists e, m = Raise e.

(** ** Python values and numbers *)

#[local] Unset Elimination Schemes.
Inductive pyval : Type :=
| VNone
| VInt (z : Z)
| VFloat (q : Q)
| VTuple (items : list pyval).
#[local] Set Elimination Schemes.

(** A number in an arithmetic expression; anything else is a [TypeError]. *)
Definition as_num (v : pyval) : outcome Q :=
  match v with
  | VInt z => Ok (inject_Z z)
  | VFloat q => Ok q
  | _ => Raise TypeError
  end.

Definition Qltb (a b : Q) : bool := negb (Qle_bool b a).

(** [int(x)]: truncation toward zero. *)
Definition py_int (x : Q) : Z := Z.quot (Qnum x) (Zpos (Qden x)).

(** [a / b] on Python numbers. *)
Definition py_div (a b : Q) : outcome Q :=
  if Qeq_bool b 0 then Raise ZeroDivisionError else Ok (a / b).

(** [int(np.ceil(x))]. *)
Definition np_ceil (x : Q) : Z := Qceiling x.

Definition Bounds : Type := (Q * Q * Q * Q)%type.

Definition bounds_val (b : Bounds) : pyval :=
  let '(minx, miny, maxx, maxy) := b in
  VTuple [VFloat minx; VFloat miny; VFloat maxx; VFloat maxy].

(** [minx, miny, maxx, maxy = bounds] *)
Definition unpack4 (v : pyval) : outcome (pyval * pyval * pyval * pyval) :=
  match v with
  | VTuple [a; b; c; d] => Ok (a, b, c, d)
  | VTuple _ => Raise ValueError
  | _ => Raise TypeError
  end.

(** ** Binding the arguments of a call *)

Definition env : Type := list (string * pyval).

Fixpoint lookup (name : string) (e : env) : option pyval :=
  match e with
  | [] => None
  | (k, v) :: rest => if String.eqb k name then Some v else lookup name rest
  end.

Definition is_param (params : list string) (name : string) : bool :=
  existsb (String.eqb name) params.

(** Keyword arguments, left to right: a keyword that is no parameter of the
    callee, or one that already has a value, is a [TypeError]. *)
Fixpoint bind_keywords (params : list string) (bound : env) (kwargs : env)
  : outcome env :=
  match kwargs with
  | [] => Ok bound
  | (k, v) :: rest =>
      if negb (is_param params k) then Raise TypeError
      else match lookup k bound with
           | Some _ => Raise TypeError
           | None => bind_keywords params (bound ++ [(k, v)]) rest
           end
  end.

Definition bind_call (params : list string) (defaults : env)
    (args : list pyval) (kwargs : env) : outcome env :=
  if (List.length params <? List.length args)%nat then Raise TypeError
  else
    bound <- bind_keywords params (combine params args) kwargs ;;
    Ok (bound ++ defaults).

(** A parameter without a value and without a default is a [TypeError]. *)
Definition arg (e : env) (name : string) : outcome pyval :=
  match lookup name e with
  | Some v => Ok v
  | None => Raise TypeError
  end.

(** ** The Dimension Resolver: [get_dims] *)

(** [def get_dims(bounds, res=.125, padding=None, min_len=256)] *)
Definition get_dims_params : list string :=
  ["bounds"; "res"; "padding"; "min_len"]%string.

Definition get_dims_defaults : env :=
  [("res", VFloat (1 # 8)); ("padding", VNone); ("min_len", VInt 256)]%string.

(** The [if]/[elif]/[elif] on [padding]: [Some (y_buffer, x_buffer)], or
    [None] when no branch assigns them. *)
Definition padding_buffers (padding : pyval) : outcome (option (pyval * pyval)) :=
  match padding with
  | VNone => Ok (Some (VInt 0, VInt 0))
  | VInt _ => Ok (Some (padding, padding))
  | VTuple [y_buffer; x_buffer] => Ok (Some (y_buffer, x_buffer))
  | VTuple _ => Raise ValueError
  | VFloat _ => Ok None
  end.

Definition num_sub (a b : pyval) : outcome Q :=
  x <- as_num a ;; y <- as_num b ;; Ok (x - y).

Definition num_add (a b : pyval) : outcome Q :=
  x <- as_num a ;; y <- as_num b ;; Ok (x + y).

Definition pixels (lo hi res : Q) : outcome Z :=
  q <- py_div (hi - lo) res ;; Ok (py_int q).

(** [int(np.ceil(((min_len - width) / 2)*res))] *)
Definition correction (min_len : Q) (width : Z) (res : Q) : Z :=
  np_ceil (((min_len - inject_Z width) / 2) * res).

(** What one activation of [get_dims] has computed when it reaches the test
    on [width]: the padded bounds, the pixel extent, and the two arguments
    the correction reads. *)
Record measured : Type := Measured {
  m_bounds : Bounds;
  m_width : Z;
  m_height : Z;
  m_res : Q;
  m_min_len : Q
}.

(** The binding of the arguments and the body down to
    [height = int((maxy - miny) / res)]. *)
Definition measure (args : list pyval) (kwargs : env) : outcome measured :=
  e <- bind_call get_dims_params get_dims_defaults args kwargs ;;
  bounds <- arg e "bounds" ;;
  res <- arg e "res" ;;
  padding <- arg e "padding" ;;
  min_len <- arg e "min_len" ;;
  buffers <- padding_buffers padding ;;
  '(minx, miny, maxx, maxy) <- unpack4 bounds ;;
  '(y_buffer, x_buffer) <-
     match buffers with
     | Some b => Ok b
     | None => Raise UnboundLocalError
     end ;;
  minx <- num_sub minx x_buffer ;;
  miny <- num_sub miny y_buffer ;;
  maxx <- num_add maxx x_buffer ;;
  maxy <- num_add maxy y_buffer ;;
  res <- as_num res ;;
  width <- pixels minx maxx res ;;
  height <- pixels miny maxy res ;;
  min_len <- as_num min_len ;;
  Ok (Measured (minx, miny, maxx, maxy) width height res min_len).

(** The body of [get_dims]; [self] is the function as the body calls it. *)
Definition get_dims_body
    (self : list pyval -> env -> outcome (Bounds * Z * Z))
    (args : list pyval) (kwargs : env) : outcome (Bounds * Z * Z) :=
  m <- measure args kwargs ;;
  let '(Measured b width height res min_len) := m in
  if Qltb (inject_Z width) min_len then
    self [bounds_val b]
      [("x_buffer", VInt (correction min_len width res));
       ("y_buffer", VInt 0)]%string
  else if Qltb (inject_Z height) min_len then
    self [bounds_val b]
      [("x_buffer", VInt 0);
       ("y_buffer", VInt (correction min_len height res))]%string
  else Ok (b, width, height).

(** [get_dims] with a bound on the depth of its recursion. *)
Fixpoint get_dims (fuel : nat) (args : list pyval) (kwargs : env)
  : outcome (Bounds * Z * Z) :=
  match fuel with
  | O => OutOfFuel
  | S fuel' => get_dims_body (get_dims fuel') args kwargs
  end.

(** The recursion budget given to [get_dims]: the call itself and one
    correction per axis. *)
Definition budget : nat := 3.

(** The resolver as the design document calls it:
    [resolve(bounds, resolution, min_axis_pixels, padding)], that is
    [get_dims(bounds, res, padding=padding, min_len=min_len)]. *)
Definition resolve (b : Bounds) (res : Q) (min_len : Z) (padding : pyval)
  : outcome (Bounds * Z * Z) :=
  get_dims budget [bounds_val b; VFloat res]
    [("padding", padding); ("min_len", VInt min_len)]%string.

(** ** numpy.linspace and the slice [[1:-1]] *)

(** [np.linspace(start, stop, num)]: [num] evenly spaced samples, the first
    at [start] and, when there are at least two, the last at [stop]. *)
Definition linspace (start stop : Q) (num : Z) : outcome (list Q) :=
  if (num <? 0)%Z then Raise ValueError
  else
    let div := (num - 1)%Z in
    let delta := stop - start in
    let step := if (0 <? div)%Z then delta / inject_Z div else delta in
    let y := map (fun i => inject_Z (Z.of_nat i) * step + start)
                 (seq 0 (Z.to_nat num)) in
    Ok (if (1 <? num)%Z then removelast y ++ [stop] else y).

(** [l[1:-1]] *)
Definition inner {A : Type} (l : list A) : list A := removelast (tl l).

(** ** The geometry capability (shapely, geopandas) *)

Definition Point : Type := (Q * Q)%type.

(** [LineString([p, q])], by its coordinates. *)
Definition LineString : Type := list Point.

Class Shapely : Type := {
  Geom : Type;                              (* Polygon or MultiPolygon *)
  Linework : Type;                          (* rings and their unions *)
  geom_bounds : Geom -> Bounds;             (* geometry.bounds *)
  area : Geom -> Q;                         (* .area *)
  split : Geom -> LineString -> list Geom;  (* shapely.ops.split(g, line).geoms *)
  exterior : Geom -> Linework;              (* .exterior *)
  union_all : list Linework -> Linework;    (* GeoSeries.union_all() *)
  polygonize : Linework -> list Geom;       (* shapely.ops.polygonize *)
  intersection : Geom -> Geom -> Geom;      (* .intersection *)
  touches : Geom -> Geom -> bool;           (* .touches *)
  union : Geom -> Geom -> Geom;             (* .union *)
  buffer : Geom -> Z -> Geom                (* .buffer(b, cap_style='square', join_style='mitre') *)
}.

(** ** The Polygon Tiler: [split_geom] *)

(** [def split_geom(geometry, crs, res, max_len=4000, buffer=0, **kwargs)] *)
Definition split_geom_params : list string :=
  ["geometry"; "crs"; "res"; "max_len"; "buffer"]%string.

(** [np.linspace(lo, hi, 1+int(np.ceil((hi-lo) / res / max_len)))[1:-1]] *)
Definition axis_cuts (lo hi res : Q) (max_len : Z) : outcome (list Q) :=
  q <- py_div (hi - lo) res ;;
  q <- py_div q (inject_Z max_len) ;;
  pts <- linspace lo hi (1 + np_ceil q) ;;
  Ok (inner pts).

Definition vline (miny maxy x : Q) : LineString := [(x, miny); (x, maxy)].

Definition hline (minx maxx y : Q) : LineString := [(minx, y); (maxx, y)].

(** The list [lines] after the two [if] blocks. *)
Definition cut_lines (dims : Bounds * Z * Z) (res : Q) (max_len : Z)
  : outcome (list LineString) :=
  let '((minx, miny, maxx, maxy), width, height) := dims in
  xl <- (if (max_len <? width)%Z
         then xlines <- axis_cuts minx maxx res max_len ;;
              Ok (map (vline miny maxy) xlines)
         else Ok []) ;;
  yl <- (if (max_len <? height)%Z
         then ylines <- axis_cuts miny maxy res max_len ;;
              Ok (map (hline minx maxx) ylines)
         else Ok []) ;;
  Ok (xl ++ yl).

Section Tiler.

Context {shp : Shapely}.

(** A GeoDataFrame with a geometry column: rows of index label and
    geometry, in row order. *)
Definition GeoDataFrame : Type := list (nat * Geom).

(** [gpd.GeoDataFrame(geometry=geoms)]: labels 0, 1, 2, ... *)
Definition new_gdf (geoms : list Geom) : GeoDataFrame :=
  combine (seq 0 (List.length geoms)) geoms.

Definition geometries (gdf : GeoDataFrame) : list Geom := map snd gdf.

Definition labels (gdf : GeoDataFrame) : list nat := map fst gdf.

(** [gdf[mask]] for a row-wise mask on the geometry. *)
Definition select (mask : Geom -> bool) (gdf : GeoDataFrame) : GeoDataFrame :=
  filter (fun row => mask (snd row)) gdf.

(** [gdf.loc[label, 'geometry'] = g] *)
Definition loc_set (gdf : GeoDataFrame) (label : nat) (g : Geom) : GeoDataFrame :=
  map (fun row => if Nat.eqb (fst row) label then (fst row, g) else row) gdf.

(** [gdf.reset_index(drop=True)] *)
Definition reset_index (gdf : GeoDataFrame) : GeoDataFrame :=
  new_gdf (geometries gdf).

(** [gdf.geometry = gdf.geometry.buffer(b, ...)] *)
Definition buffer_all (b : Z) (gdf : GeoDataFrame) : GeoDataFrame :=
  map (fun row => (fst row, buffer (snd row) b)) gdf.

(** Step 1: [get_dims(geometry.bounds, **kwargs)].  The named parameters
    of [split_geom] never reach [kwargs]: a keyword with one of their names
    is a second value for that parameter. *)
Definition tiler_dims (geometry : Geom) (kwargs : env)
  : outcome (Bounds * Z * Z) :=
  if existsb (is_param split_geom_params) (map fst kwargs)
  then Raise TypeError
  else get_dims budget [bounds_val (geom_bounds geometry)] kwargs.

Definition tiler_lines (geometry : Geom) (res : Q) (max_len : Z) (kwargs : env)
  : outcome (list LineString) :=
  dims <- tiler_dims geometry kwargs ;;
  cut_lines dims res max_len.

(** [polygonize(GeoSeries(geoms, crs=crs).exterior.union_all())] over the
    fragments of every cut line; the CRS is a tag of the series and no
    operation reads it. *)
Definition candidate_regions (geometry : Geom) (lines : list LineString)
  : GeoDataFrame :=
  let geoms := flat_map (split geometry) lines in
  new_gdf (polygonize (union_all (map exterior geoms))).

(** The two filters [gdf.area>1] and [gdf.intersection(geometry).area>10]. *)
Definition kept_regions (geometry : Geom) (gdf : GeoDataFrame) : GeoDataFrame :=
  select (fun g => Qltb 10 (area (intersection g geometry)))
         (select (fun g => Qltb 1 (area g)) gdf).

Definition slivers_of (gdf : GeoDataFrame) : GeoDataFrame :=
  select (fun g => Qltb (area g) 100) gdf.

Definition tiles_of (gdf : GeoDataFrame) : GeoDataFrame :=
  select (fun g => Qle_bool 100 (area g)) gdf.

(** One turn of the loop over [slivers.iterrows()]. *)
Definition absorb_sliver (gdf : GeoDataFrame) (sliver : nat * Geom)
  : GeoDataFrame :=
  let nbs := select (fun g => touches g (snd sliver)) gdf in
  match nbs with
  | [] => gdf
  | nb :: _ => loc_set gdf (fst nb) (union (snd nb) (snd sliver))
  end.

Definition absorb (gdf slivers : GeoDataFrame) : GeoDataFrame :=
  fold_left absorb_sliver slivers gdf.

(** The multi-tile path, from the cut lines to the returned frame. *)
Definition multi_tile (geometry : Geom) (lines : list LineString) (b : Z)
  : GeoDataFrame :=
  let gdf := kept_regions geometry (candidate_regions geometry lines) in
  let slivers := slivers_of gdf in
  let gdf := tiles_of gdf in
  reset_index (buffer_all b (absorb gdf slivers)).

Definition split_geom (geometry : Geom) (crs : string) (res : Q)
    (max_len : Z) (b : Z) (kwargs : env) : outcome GeoDataFrame :=
  lines <- tiler_lines geometry res max_len kwargs ;;
  match lines with
  | [] => Ok (new_gdf [geometry])
  | _ :: _ => Ok (multi_tile geometry lines b)
  end.

End Tiler.

(** ** A geometry capability on axis-aligned boxes

    A geometry is a list of boxes with disjoint interiors (one box: a
    rectangular polygon; several: a multi-part polygon).  The operations are
    exact on the arrangements the tiler builds from one box (for several
    boxes [polygonize] may cut finer than the arrangement); they serve to
    run the tiler on concrete inputs. *)

Module Boxes.

Definition Box : Type := Bounds.

Definition qmin (a b : Q) : Q := if Qle_bool a b then a else b.

Definition qmax (a b : Q) : Q := if Qle_bool a b then b else a.

(** The positive part of a length. *)
Definition pos (x : Q) : Q := if Qle_bool 0 x then x else 0.

Definition box_area (b : Box) : Q :=
  let '(x0, y0, x1, y1) := b in pos (x1 - x0) * pos (y1 - y0).

Definition hull (a b : Box) : Box :=
  let '(ax0, ay0, ax1, ay1) := a in
  let '(bx0, by0, bx1, by1) := b in
  (qmin ax0 bx0, qmin ay0 by0, qmax ax1 bx1, qmax ay1 by1).

Definition boxes_bounds (g : list Box) : Bounds :=
  match g with
  | [] => (0, 0, 0, 0)
  | b :: rest => fold_left hull rest b
  end.

Definition boxes_area (g : list Box) : Q :=
  fold_right (fun b acc => box_area b + acc) 0 g.

(** A box cut by a vertical or horizontal segment that crosses it from
    side to side. *)
Definition cut_box (line : LineString) (b : Box) : list Box :=
  let '(x0, y0, x1, y1) := b in
  match line with
  | [(px, py); (qx, qy)] =>
      if Qeq_bool px qx then
        if Qltb x0 px && Qltb px x1
           && Qle_bool (qmin py qy) y0 && Qle_bool y1 (qmax py qy)
        then [(x0, y0, px, y1); (px, y0, x1, y1)] else [b]
      else if Qeq_bool py qy then
        if Qltb y0 py && Qltb py y1
           && Qle_bool (qmin px qx) x0 && Qle_bool x1 (qmax px qx)
        then [(x0, y0, x1, py); (x0, py, x1, y1)] else [b]
      else [b]
  | _ => [b]
  end.

Definition boxes_split (g : list Box) (line : LineString) : list (list Box) :=
  map (fun b => [b]) (flat_map (cut_box line) g).

(** Sorted insertion of a coordinate, equal coordinates kept once. *)
Fixpoint insert_coord (x : Q) (l : list Q) : list Q :=
  match l with
  | [] => [x]
  | y :: rest =>
      if Qle_bool x y then (if Qeq_bool x y then l else x :: l)
      else y :: insert_coord x rest
  end.

Definition sorted_coords (l : list Q) : list Q := fold_right insert_coord [] l.

Definition intervals (l : list Q) : list (Q * Q) := combine l (tl l).

Definition inside (c r : Box) : bool :=
  let '(cx0, cy0, cx1, cy1) := c in
  let '(rx0, ry0, rx1, ry1) := r in
  Qle_bool rx0 cx0 && Qle_bool cx1 rx1 && Qle_bool ry0 cy0 && Qle_bool cy1 ry1.

(** The faces of the arrangement of the rings: the cells of the grid of
    their coordinates that lie inside a ring. *)
Definition boxes_polygonize (rings : list Box) : list (list Box) :=
  let xs := sorted_coords (flat_map (fun '(x0, _, x1, _) => [x0; x1]) rings) in
  let ys := sorted_coords (flat_map (fun '(_, y0, _, y1) => [y0; y1]) rings) in
  let cells :=
    flat_map (fun xi => map (fun yi => (fst xi, fst yi, snd xi, snd yi))
                            (intervals ys))
             (intervals xs) in
  map (fun c => [c]) (filter (fun c => existsb (inside c) rings) cells).

Definition meet (a b : Box) : Box :=
  let '(ax0, ay0, ax1, ay1) := a in
  let '(bx0, by0, bx1, by1) := b in
  (qmax ax0 bx0, qmax ay0 by0, qmin ax1 bx1, qmin ay1 by1).

Definition has_interior (b : Box) : bool :=
  let '(x0, y0, x1, y1) := b in Qltb x0 x1 && Qltb y0 y1.

Definition nonempty (b : Box) : bool :=
  let '(x0, y0, x1, y1) := b in Qle_bool x0 x1 && Qle_bool y0 y1.

Definition boxes_intersection (g h : list Box) : list Box :=
  filter has_interior (flat_map (fun a => map (meet a) h) g).

(** Some boundary point in common, no interior point in common. *)
Definition boxes_touches (g h : list Box) : bool :=
  let meets := flat_map (fun a => map (meet a) h) g in
  existsb nonempty meets && negb (existsb has_interior meets).

Definition grow (d : Z) (b : Box) : Box :=
  let '(x0, y0, x1, y1) := b in
  (x0 - inject_Z d, y0 - inject_Z d, x1 + inject_Z d, y1 + inject_Z d).

#[export] Instance shapely : Shapely := {|
  Geom := list Box;
  Linework := list Box;
  geom_bounds := boxes_bounds;
  area := boxes_area;
  split := boxes_split;
  exterior := fun g => g;
  union_all := @List.concat Box;
  polygonize := boxes_polygonize;
  intersection := boxes_intersection;
  touches := boxes_touches;
  union := @app Box;
  buffer := fun g d => map (grow d) g
|}.

(** A square polygon with bounds [(0, 0, side, side)]. *)
Definition square (side : Q) : @Geom shapely := [(0, 0, side, side)].

(** A two-part polygon: two unit squares, bounds [(0, 0, 40, 40)], area 2. *)
Definition specks : @Geom shapely := [(0, 0, 1, 1); (39, 39, 40, 40)].

(** A large square with a 5 by 10 annex on its right side. *)
Definition annexed : @Geom shapely :=
  [(0, 0, 1000, 1000); (1000, 0, 1005, 10)].

End Boxes.

(** * wmsget.wms: layer names, grids and the download of an image

    The functions of [src/wmsget/wms.py].  What they reach outside the
    program is taken as given: the WMS server is an oracle that answers the
    n-th request, the grid archives are two frames, and the raster file is
    known by the events it receives (opened, written, closed). *)

From Stdlib Require Import DecimalString DecimalPos DecimalZ Ascii NArith.

(** ** Exceptions and results *)

Inductive error : Type :=
| Builtin (e : exn)            (* an exception of [wmsget.geom], as it is *)
| KeyError
| RuntimeError
| HTTPError (status : Z)       (* urllib's or requests' HTTPError *)
| OtherError (name : string).  (* any other exception of a backend *)

Inductive result (A : Type) : Type :=
| Done (a : A)
| Fail (e : error)
| Unfinished.

Arguments Done {A} a.
Arguments Fail {A} e.
Arguments Unfinished {A}.

(** The outcome of a function of [wmsget.geom], seen from [wmsget.wms]. *)
Definition lift {A : Type} (m : outcome A) : result A :=
  match m with
  | Ok a => Done a
  | Raise e => Fail (Builtin e)
  | OutOfFuel => Unfinished
  end.

(** [d[key]] on a dict with string keys. *)
Fixpoint getitem {A : Type} (d : list (string * A)) (key : string) : result A :=
  match d with
  | [] => Fail KeyError
  | (k, v) :: rest => if String.eqb k key then Done v else getitem rest key
  end.

(** ** [get_layer_name] *)

(** [year : str | int] *)
Inductive year_arg : Type :=
| YearStr (s : string)
| YearInt (z : Z).

(** [str(year)] *)
Definition str_year (year : year_arg) : string :=
  match year with
  | YearStr s => s
  | YearInt z => NilZero.string_of_int (Z.to_int z)
  end.

(** [def get_layer_name(service, year, res=0.125, season='spring', bands='rgb')] *)
Definition get_layer_name (service : string) (year : year_arg) (res : Q)
    (season bands : string) : result string :=
  if (String.eqb service "dk" || String.eqb service "denmark")%bool then
    let resstr := if Qeq_bool res (1 # 10) then "10"%string else "12_5"%string in
    let bands := if String.eqb bands "cir" then "_cir"%string else ""%string in
    let layers :=
      [("dk"%string,
        [("spring"%string,
          ("geodanmark_" ++ str_year year ++ "_" ++ resstr ++ "cm" ++ bands)%string)])] in
    match getitem layers service with
    | Done by_season => getitem by_season season
    | Fail e => Fail e
    | Unfinished => Unfinished
    end
  else Fail (Builtin ValueError).

(** ** [query_grid] *)

(** [str.lower()] on ASCII text. *)
Definition lower_char (c : ascii) : ascii :=
  let n := N_of_ascii c in
  if ((65 <=? n) && (n <=? 90))%N then ascii_of_N (n + 32) else c.

Fixpoint lower (s : string) : string :=
  match s with
  | EmptyString => EmptyString
  | String c rest => String (lower_char c) (lower rest)
  end.

Fixpoint ascii_only (s : string) : bool :=
  match s with
  | EmptyString => true
  | String c rest => (N_of_ascii c <? 128)%N && ascii_only rest
  end.

Section Grid.

(** The index labels and the rows of a grid, and the two grids of the
    package as [read_dataframe(...).set_index(...)] yields them. *)
Variables Label Row : Type.
Variable label_eqb : Label -> Label -> bool.
Variables read_1km read_10km : result (list (Label * Row)).

Inductive selection : Type :=
| WholeGrid (df : list (Label * Row))
| OneRow (row : Row)
| SomeRows (rows : list Row).

(** [df.loc[index]]: the row with that label, the rows when several have
    it, [KeyError] when none has. *)
Definition loc (df : list (Label * Row)) (index : Label) : result selection :=
  match map snd (filter (fun r => label_eqb (fst r) index) df) with
  | [] => Fail KeyError
  | [row] => Done (OneRow row)
  | rows => Done (SomeRows rows)
  end.

(** [def query_grid(grid, index=None)]; [None] after the [match] stands for
    a [df] that no case has assigned. *)
Definition query_grid (grid : string) (index : option Label) : result selection :=
  let name := lower grid in
  let df :=
    if (String.eqb name "dk1" || String.eqb name "dk1km")%bool then
      match read_1km with
      | Done df => Done (Some df)
      | Fail e => Fail e
      | Unfinished => Unfinished
      end
    else if (String.eqb name "dk10" || String.eqb name "dk10km")%bool then
      match read_10km with
      | Done df => Done (Some df)
      | Fail e => Fail e
      | Unfinished => Unfinished
      end
    else Done None in
  match df with
  | Done (Some df) =>
      match index with
      | Some i => loc df i
      | None => Done (WholeGrid df)
      end
  | Done None => Fail (Builtin UnboundLocalError)
  | Fail e => Fail e
  | Unfinished => Unfinished
  end.

End Grid.

(** ** [send_request] and [get_image] *)

Section Download.

Context {shp : Shapely}.

(** The image data of a response. *)
Variable Data : Type.

(** What a backend gets from the server for one call of [send_request]:
    the decoded image, an HTTP error, or another exception. *)
Inductive response : Type :=
| Image (data : Data)
| HttpFailure (status : Z)
| OtherFailure (name : string).

(** The server: its answer to the n-th request, for the bounds, width and
    height asked. *)
Variable server : nat -> Bounds * Z * Z -> response.

(** What the program does to the world. *)
Inductive event : Type :=
| Opened (bounds : Bounds) (width height : Z)   (* rst.open(out_path, 'w', ...) with this extent *)
| Requested (dims : Bounds * Z * Z)             (* a request sent by a backend *)
| Slept                                         (* print(...); time.sleep(5) *)
| Written (bounds : Bounds) (data : Data)       (* dst.write(data, window) for the window of these bounds *)
| Closed.                                       (* leaving the [with] block *)

Definition is_request (ev : event) : bool :=
  match ev with Requested _ => true | _ => false end.

Definition is_sleep (ev : event) : bool :=
  match ev with Slept => true | _ => false end.

Definition is_write (ev : event) : bool :=
  match ev with Written _ _ => true | _ => false end.

Definition requests_made (trace : list event) : nat :=
  List.length (filter is_request trace).

Definition known_backend (backend : string) : bool :=
  (String.eqb backend "owslib" || String.eqb backend "urllib")%bool.

(** [send_request(url, layer, crs, *dims, backend=backend)]: a backend other
    than the two of the [match] leaves [request] unassigned. *)
Definition send_request (backend : string) (dims : Bounds * Z * Z)
    (trace : list event) : result Data * list event :=
  if known_backend backend then
    let trace' := trace ++ [Requested dims] in
    match server (requests_made trace) dims with
    | Image data => (Done data, trace')
    | HttpFailure status => (Fail (HTTPError status), trace')
    | OtherFailure name => (Fail (OtherError name), trace')
    end
  else (Fail (Builtin UnboundLocalError), trace).

(** [err_code] in the [except] block. *)
Definition err_code (backend : string) (status : Z) : result Z :=
  if String.eqb backend "owslib" then Done status
  else if String.eqb backend "urllib" then Done status
  else Fail (Builtin UnboundLocalError).

(** The loop [for i in range(tries)] from its [i]-th turn on, [left] turns
    to go; its [else] clause raises [RuntimeError]. *)
Fixpoint attempts (left : nat) (i tries : Z) (backend : string)
    (dims : Bounds * Z * Z) (trace : list event) : result Data * list event :=
  match left with
  | O => (Fail RuntimeError, trace)
  | S left' =>
      match send_request backend dims trace with
      | (Done data, trace) => (Done data, trace)
      | (Fail (HTTPError status), trace) =>
          match err_code backend status with
          | Done code =>
              if ((code =? 504) && (i <? tries - 1))%Z
              then attempts left' (i + 1)%Z tries backend dims (trace ++ [Slept])
              else attempts left' (i + 1)%Z tries backend dims trace
          | Fail e => (Fail e, trace)
          | Unfinished => (Unfinished, trace)
          end
      | (Fail e, trace) => (Fail e, trace)
      | (Unfinished, trace) => (Unfinished, trace)
      end
  end.

Definition fetch (tries : Z) (backend : string) (dims : Bounds * Z * Z)
    (trace : list event) : result Data * list event :=
  attempts (Z.to_nat tries) 0 tries backend dims trace.

(** [get_dims(g.geometry.bounds, res)] *)
Definition tile_dims (res : Q) (g : Geom) : result (Bounds * Z * Z) :=
  lift (get_dims budget [bounds_val (geom_bounds g); VFloat res] []).

(** The loop [for _, g in gdf.iterrows()]. *)
Fixpoint write_tiles (res : Q) (backend : string) (tries : Z)
    (gdf : GeoDataFrame) (trace : list event) : result unit * list event :=
  match gdf with
  | [] => (Done tt, trace)
  | (_, g) :: rest =>
      match tile_dims res g with
      | Done dims =>
          match fetch tries backend dims trace with
          | (Done data, trace) =>
              write_tiles res backend tries rest
                (trace ++ [Written (fst (fst dims)) data])
          | (Fail e, trace) => (Fail e, trace)
          | (Unfinished, trace) => (Unfinished, trace)
          end
      | Fail e => (Fail e, trace)
      | Unfinished => (Unfinished, trace)
      end
  end.

(** [def get_image(geom, url, layer, crs, res, out_path, max_len=4000,
    padding=None, backend='owslib', tries=3)]; the URL, the layer and the
    path are carried to the server and the file and decide nothing here. *)
Definition get_image (geom : Geom) (crs : string) (res : Q) (max_len : Z)
    (padding : pyval) (backend : string) (tries : Z) (trace : list event)
  : result unit * list event :=
  match lift (get_dims budget [bounds_val (geom_bounds geom); VFloat res]
                [("padding"%string, padding)]) with
  | Done (bounds, width, height) =>
      match lift (split_geom geom crs res max_len 0 []) with
      | Done gdf =>
          let '(r, trace) :=
            write_tiles res backend tries gdf
              (trace ++ [Opened bounds width height]) in
          (r, trace ++ [Closed])
      | Fail e => (Fail e, trace)
      | Unfinished => (Unfinished, trace)
      end
  | Fail e => (Fail e, trace)
  | Unfinished => (Unfinished, trace)
  end.

End Download.

Arguments Image {Data} data.
Arguments HttpFailure {Data} status.
Arguments OtherFailure {Data} name.
Arguments Opened {Data} bounds width height.
Arguments Requested {Data} dims.
Arguments Slept {Data}.
Arguments Written {Data} bounds data.
Arguments Closed {Data}.
Arguments is_request {Data} ev.
Arguments is_sleep {Data} ev.
Arguments is_write {Data} ev.
Arguments requests_made {Data} trace.
Arguments send_request {Data} server backend dims trace.
Arguments attempts {Data} server left i tries backend dims trace.
Arguments fetch {Data} server tries backend dims trace.
Arguments write_tiles {shp Data} server res backend tries gdf trace.
Arguments get_image {shp Data} server geom crs res max_len padding backend tries trace.

(** * Notions used in the statements *)

(** An outcome that is a value or an exception: the computation ended
    within its recursion budget. *)
Definition definite {A : Type} (m : outcome A) : Prop := m <> OutOfFuel.

(** What [get_dims] does once its nested call is resolved. *)
Definition get_dims_unfolded (args : list pyval) (kwargs : env)
  : outcome (Bounds * Z * Z) :=
  m <- measure args kwargs ;;
  if Qltb (inject_Z (m_width m)) (m_min_len m) then Raise TypeError
  else if Qltb (inject_Z (m_height m)) (m_min_len m) then Raise TypeError
  else Ok (m_bounds m, m_width m, m_height m).


(** [xs] are the [k - 1] points strictly inside [lo, hi] that divide it in
    [k] equal parts, in increasing order. *)
Definition evenly_spaced (lo hi : Q) (k : Z) (xs : list Q) : Prop :=
  Z.of_nat (List.length xs) = (k - 1)%Z
  /\ (forall j, (j < List.length xs)%nat ->
        nth j xs 0 == lo + inject_Z (Z.of_nat (S j)) * ((hi - lo) / inject_Z k)
        /\ lo < nth j xs 0 /\ nth j xs 0 < hi)
  /\ (forall i j, (i < j < List.length xs)%nat -> nth i xs 0 < nth j xs 0).

(** [ceil(units / resolution / max_axis_pixels)]: the number of parts an
    axis of [hi - lo] units is cut in. *)
Definition parts (lo hi res : Q) (max_len : Z) : Z :=
  Qceiling ((hi - lo) / res / inject_Z max_len).

(** A row large enough to stand as a tile of its own. *)
Definition tile_sized {shp : Shapely} (row : nat * Geom) : Prop :=
  100 <= area (snd row).

(** The suffix of a layer name: resolution and bands. *)
Definition layer_suffix (ten_cm cir : bool) : string :=
  ("_" ++ (if ten_cm then "10" else "12_5") ++ "cm"
       ++ (if cir then "_cir" else ""))%string.

Definition sleeps_made {Data : Type} (trace : list (event Data)) : nat :=
  List.length (filter is_sleep trace).

Definition writes_made {Data : Type} (trace : list (event Data)) : nat :=
  List.length (filter is_write trace).

(** The bounds of the windows written, in the order of the writes. *)
Fixpoint written_bounds {Data : Type} (trace : list (event Data)) : list Bounds :=
  match trace with
  | [] => []
  | Written b _ :: rest => b :: written_bounds rest
  | _ :: rest => written_bounds rest
  end.

(** An event of the retry loop: a request or a sleep. *)
Definition is_retry_event {Data : Type} (ev : event Data) : bool :=
  (is_request ev || is_sleep ev)%bool.

(** An event inside the [with] block: anything but opening and closing. *)
Definition is_inner_event {Data : Type} (ev : event Data) : bool :=
  match ev with
  | Opened _ _ _ | Closed => false
  | _ => true
  end.

(** The sleeps the loop owes for a run of HTTP failures that starts at turn
    [i]: one for each status 504 met before the last turn. *)
Fixpoint sleeps_due (i tries : Z) (statuses : list Z) : nat :=
  match statuses with
  | [] => 0
  | s :: rest =>
      ((if ((s =? 504) && (i <? tries - 1))%Z then 1 else 0)
       + sleeps_due (i + 1) tries rest)%nat
  end.

(** The bounds of the tiles of a frame, in row order. *)
Definition tile_bounds {shp : Shapely} (gdf : GeoDataFrame) : list Bounds :=
  map (fun row => geom_bounds (snd row)) gdf.

(** * Properties of the Dimension Resolver *)

(** ** Definite outcomes *)

Lemma definite_bind {A B : Type} (m : outcome A) (k : A -> outcome B) :
  definite m -> (forall a, definite (k a)) -> definite (bind m k).
Proof.
  intros Hm Hk. destruct m as [a | e |]; simpl.
  - apply Hk.
  - discriminate.
  - now elim Hm.
Qed.

Lemma definite_Ok {A : Type} (a : A) : definite (Ok a).
Proof. discriminate. Qed.

Lemma definite_Raise {A : Type} (e : exn) : definite (@Raise A e).
Proof. discriminate. Qed.

Create HintDb definite.

#[local] Hint Resolve definite_Ok definite_Raise : definite.

Ltac definite_step :=
  match goal with
  | |- definite (bind _ _) => apply definite_bind; [| intros ?]
  | |- definite (match ?x with _ => _ end) => destruct x
  | |- definite _ => solve [auto with definite]
  end.

Lemma definite_bind_keywords params kwargs :
  forall bound, definite (bind_keywords params bound kwargs).
Proof.
  induction kwargs as [| [k v] rest IH]; intros bound; simpl.
  - auto with definite.
  - destruct (negb (is_param params k)); [auto with definite |].
    destruct (lookup k bound); [auto with definite | apply IH].
Qed.

Lemma definite_bind_call params defaults args kwargs :
  definite (bind_call params defaults args kwargs).
Proof.
  unfold bind_call. destruct (_ <? _)%nat; [auto with definite |].
  apply definite_bind; [apply definite_bind_keywords | auto with definite].
Qed.

Lemma definite_arg e name : definite (arg e name).
Proof. unfold arg. destruct (lookup name e); auto with definite. Qed.

Lemma definite_as_num v : definite (as_num v).
Proof. destruct v; simpl; auto with definite. Qed.

Lemma definite_padding_buffers v : definite (padding_buffers v).
Proof.
  destruct v as [| z | q | items]; simpl; auto with definite.
  destruct items as [| a [| b [| c l]]]; auto with definite.
Qed.

Lemma definite_unpack4 v : definite (unpack4 v).
Proof.
  destruct v as [| z | q | items]; simpl; auto with definite.
  destruct items as [| a [| b [| c [| d [| x l]]]]]; auto with definite.
Qed.

Lemma definite_num_sub a b : definite (num_sub a b).
Proof.
  unfold num_sub.
  repeat (apply definite_bind; [apply definite_as_num | intros]).
  auto with definite.
Qed.

Lemma definite_num_add a b : definite (num_add a b).
Proof.
  unfold num_add.
  repeat (apply definite_bind; [apply definite_as_num | intros]).
  auto with definite.
Qed.

Lemma definite_py_div a b : definite (py_div a b).
Proof. unfold py_div. destruct (Qeq_bool b 0); auto with definite. Qed.

Lemma definite_pixels lo hi res : definite (pixels lo hi res).
Proof.
  unfold pixels. apply definite_bind; [apply definite_py_div | auto with definite].
Qed.

#[local] Hint Resolve definite_bind_call definite_arg definite_as_num
  definite_padding_buffers definite_unpack4 definite_num_sub definite_num_add
  definite_py_div definite_pixels : definite.

(** The part of [get_dims] before the recursion has an outcome of its own. *)
Lemma definite_measure args kwargs : definite (measure args kwargs).
Proof. unfold measure. repeat definite_step. Qed.

(** ** The corrective call *)

(** [x_buffer] and [y_buffer] are no parameters of [get_dims]: the call
    [get_dims(bounds, x_buffer=..., y_buffer=...)] is rejected when its
    arguments are bound, before the body runs. *)
Lemma correction_call_rejected (fuel : nat) (b : pyval) (x y : pyval) :
  get_dims (S fuel) [b] [("x_buffer", x); ("y_buffer", y)]%string
  = Raise TypeError.
Proof. reflexivity. Qed.

Lemma get_dims_unfold (fuel : nat) (args : list pyval) (kwargs : env) :
  get_dims (S (S fuel)) args kwargs = get_dims_unfolded args kwargs.
Proof.
  change (get_dims (S (S fuel)) args kwargs)
    with (get_dims_body (get_dims (S fuel)) args kwargs).
  unfold get_dims_body, get_dims_unfolded.
  destruct (measure args kwargs) as [[b w h r ml] | e |];
    cbn [bind m_width m_height m_min_len m_bounds];
    rewrite ?correction_call_rejected; reflexivity.
Qed.

Lemma definite_get_dims_unfolded args kwargs :
  definite (get_dims_unfolded args kwargs).
Proof.
  unfold get_dims_unfolded.
  apply definite_bind; [apply definite_measure | intros m].
  destruct (Qltb _ _); [auto with definite |].
  destruct (Qltb _ _); auto with definite.
Qed.

(** ** Termination *)

(** C7.  The Dimension Resolver terminates on every input, whatever the
    bounds, the resolution and the padding: a recursion budget of two
    activations (the call and one corrective call) always yields a value or
    an exception, and a larger budget changes nothing.  So a run makes at
    most one corrective call, within the bound of one per axis, two in all. *)
Theorem get_dims_terminates (fuel : nat) (args : list pyval) (kwargs : env) :
  (2 <= fuel)%nat ->
  definite (get_dims fuel args kwargs)
  /\ get_dims fuel args kwargs = get_dims 2 args kwargs.
Proof.
  intros Hfuel.
  destruct fuel as [| [| fuel]]; [lia | lia |].
  rewrite !get_dims_unfold. split.
  - apply definite_get_dims_unfolded.
  - reflexivity.
Qed.

Lemma get_dims_terminates_witness :
  (2 <= budget)%nat
  /\ (definite (get_dims budget [bounds_val (0, 0, 10, 10)] [])
      /\ get_dims budget [bounds_val (0, 0, 10, 10)] []
         = get_dims 2 [bounds_val (0, 0, 10, 10)] []).
Proof.
  split.
  - unfold budget. lia.
  - apply (get_dims_terminates budget). unfold budget. lia.
Defined.

(** ** Arithmetic of the embedding *)

Lemma Qminus_0_eq (q : Q) : q - inject_Z 0 = q.
Proof.
  destruct q as [n d]. unfold Qminus, Qplus, Qopp, inject_Z. simpl.
  now rewrite Z.mul_1_r, Z.add_0_r, Pos.mul_1_r.
Qed.

Lemma Qplus_0_eq (q : Q) : q + inject_Z 0 = q.
Proof.
  destruct q as [n d]. unfold Qplus, inject_Z. simpl.
  now rewrite Z.mul_1_r, Z.add_0_r, Pos.mul_1_r.
Qed.

Lemma Qltb_inject_Z (a b : Z) : Qltb (inject_Z a) (inject_Z b) = (a <? b)%Z.
Proof.
  unfold Qltb, Qle_bool, inject_Z. simpl. rewrite !Z.mul_1_r.
  now rewrite Z.ltb_antisym.
Qed.

Lemma Qltb_lt (a b : Q) : Qltb a b = true <-> a < b.
Proof.
  unfold Qltb. rewrite negb_true_iff, <- not_true_iff_false, Qle_bool_iff.
  split; [apply Qnot_le_lt | apply Qlt_not_le].
Qed.

Lemma Qltb_ge (a b : Q) : Qltb a b = false <-> b <= a.
Proof.
  unfold Qltb. rewrite negb_false_iff. apply Qle_bool_iff.
Qed.

Lemma Qeq_bool_pos (q : Q) : 0 < q -> Qeq_bool q 0 = false.
Proof.
  intros H. apply not_true_iff_false. intros E.
  apply Qeq_bool_iff in E. rewrite E in H. now apply Qlt_irrefl in H.
Qed.

Lemma pixels_pos (lo hi res : Q) :
  0 < res -> pixels lo hi res = Ok (py_int ((hi - lo) / res)).
Proof.
  intros H. unfold pixels, py_div. now rewrite (Qeq_bool_pos _ H).
Qed.

(** ** The resolver without padding *)

Lemma measure_no_padding (minx miny maxx maxy res : Q) (min_len : Z) :
  0 < res ->
  measure [bounds_val (minx, miny, maxx, maxy); VFloat res]
          [("padding", VNone); ("min_len", VInt min_len)]%string
  = Ok (Measured (minx, miny, maxx, maxy)
                 (py_int ((maxx - minx) / res)) (py_int ((maxy - miny) / res))
                 res (inject_Z min_len)).
Proof.
  intros Hres. cbn. rewrite !Qminus_0_eq, !Qplus_0_eq.
  now rewrite !(pixels_pos _ _ _ Hres).
Qed.

(** Leaving [padding] out of the call is passing [None]. *)
Lemma measure_default_padding (b : Bounds) (res : Q) (min_len : Z) :
  measure [bounds_val b; VFloat res] [("min_len", VInt min_len)]%string
  = measure [bounds_val b; VFloat res]
            [("padding", VNone); ("min_len", VInt min_len)]%string.
Proof. reflexivity. Qed.

(** C10.  With padding unset ([None], passed or left to its default), when
    the width and the height computed from the bounds are both at least
    [min_len], the resolver returns the input bounds themselves, with that
    width and height. *)
Theorem resolve_no_padding_keeps_bounds
    (minx miny maxx maxy res : Q) (min_len : Z) :
  0 < res ->
  (min_len <= py_int ((maxx - minx) / res))%Z ->
  (min_len <= py_int ((maxy - miny) / res))%Z ->
  resolve (minx, miny, maxx, maxy) res min_len VNone
  = Ok ((minx, miny, maxx, maxy),
        py_int ((maxx - minx) / res), py_int ((maxy - miny) / res))
  /\ get_dims budget [bounds_val (minx, miny, maxx, maxy); VFloat res]
       [("min_len", VInt min_len)]%string
     = resolve (minx, miny, maxx, maxy) res min_len VNone.
Proof.
  intros Hres Hw Hh. unfold resolve, budget.
  rewrite !get_dims_unfold. unfold get_dims_unfolded.
  rewrite measure_default_padding.
  rewrite (measure_no_padding _ _ _ _ _ _ Hres).
  cbn [bind m_width m_height m_min_len m_bounds].
  rewrite !Qltb_inject_Z.
  apply Z.ltb_ge in Hw, Hh. now rewrite Hw, Hh.
Qed.

Lemma resolve_no_padding_keeps_bounds_witness :
  0 < 1 # 2
  /\ (256 <= py_int ((1000 - 0) / (1 # 2)))%Z
  /\ (256 <= py_int ((500 - 0) / (1 # 2)))%Z
  /\ resolve (0, 0, 1000, 500) (1 # 2) 256 VNone
     = Ok ((0, 0, 1000, 500), 2000%Z, 1000%Z).
Proof.
  assert (Hw : (256 <= py_int ((1000 - 0) / (1 # 2)))%Z)
    by (vm_compute; discriminate).
  assert (Hh : (256 <= py_int ((500 - 0) / (1 # 2)))%Z)
    by (vm_compute; discriminate).
  split; [reflexivity |]. split; [exact Hw |]. split; [exact Hh |].
  exact (proj1 (resolve_no_padding_keeps_bounds 0 0 1000 500 (1 # 2) 256
                  eq_refl Hw Hh)).
Defined.

(** ** The minimum guarantee *)

(** Whenever the resolver returns, both axes have the minimum length. *)
Lemma get_dims_unfolded_minimum args kwargs b w h :
  get_dims_unfolded args kwargs = Ok (b, w, h) ->
  exists m, measure args kwargs = Ok m
            /\ b = m_bounds m /\ w = m_width m /\ h = m_height m
            /\ m_min_len m <= inject_Z w /\ m_min_len m <= inject_Z h.
Proof.
  unfold get_dims_unfolded.
  destruct (measure args kwargs) as [m | e |]; cbn [bind]; try discriminate.
  destruct (Qltb (inject_Z (m_width m)) _) eqn:Ew; try discriminate.
  destruct (Qltb (inject_Z (m_height m)) _) eqn:Eh; try discriminate.
  intros [= <- <- <-]. exists m.
  apply Qltb_ge in Ew, Eh. repeat split; assumption.
Qed.

(** A deficient axis without padding: the corrective call is attempted and
    rejected. *)
Lemma resolve_deficient_width_raises
    (minx miny maxx maxy res : Q) (min_len : Z) :
  0 < res ->
  (py_int ((maxx - minx) / res) < min_len)%Z ->
  resolve (minx, miny, maxx, maxy) res min_len VNone = Raise TypeError.
Proof.
  intros Hres Hw. unfold resolve, budget.
  rewrite get_dims_unfold. unfold get_dims_unfolded.
  rewrite (measure_no_padding _ _ _ _ _ _ Hres).
  cbn [bind m_width m_height m_min_len m_bounds].
  rewrite !Qltb_inject_Z. apply Z.ltb_lt in Hw. now rewrite Hw.
Qed.

Lemma resolve_deficient_height_raises
    (minx miny maxx maxy res : Q) (min_len : Z) :
  0 < res ->
  (py_int ((maxy - miny) / res) < min_len)%Z ->
  resolve (minx, miny, maxx, maxy) res min_len VNone = Raise TypeError.
Proof.
  intros Hres Hh. unfold resolve, budget.
  rewrite get_dims_unfold. unfold get_dims_unfolded.
  rewrite (measure_no_padding _ _ _ _ _ _ Hres).
  cbn [bind m_width m_height m_min_len m_bounds].
  rewrite !Qltb_inject_Z. apply Z.ltb_lt in Hh. rewrite Hh.
  destruct (py_int ((maxx - minx) / res) <? min_len)%Z; reflexivity.
Qed.

(** C1.  [get_dims((0, 0, 10, 10), 1, min_len=256)]: the width is 10, below
    256; the corrective call [get_dims(bounds, x_buffer=123, y_buffer=0)]
    raises [TypeError], so no width and height are returned at all. *)
Theorem resolve_small_bounds_raises :
  resolve (0, 0, 10, 10) 1 256 VNone = Raise TypeError
  /\ measure [bounds_val (0, 0, 10, 10); VFloat 1]
             [("padding", VNone); ("min_len", VInt 256)]%string
     = Ok (Measured (0, 0, 10, 10) 10 10 1 256)
  /\ correction 256 10 1 = 123%Z
  /\ get_dims 2 [bounds_val (0, 0, 10, 10)]
       [("x_buffer", VInt 123); ("y_buffer", VInt 0)]%string
     = Raise TypeError.
Proof. repeat split; vm_compute; reflexivity. Qed.

(** * Properties of the cut lines *)

(** ** [linspace] and its inner points *)

Lemma inner_linspace_points {A : Type} (f : nat -> A) (z : A) (n : nat) :
  inner (removelast (map f (seq 0 (S (S n)))) ++ [z]) = map f (seq 1 n).
Proof.
  unfold inner.
  replace (seq 0 (S (S n))) with (0%nat :: seq 1 n ++ [S n]).
  - rewrite map_cons, map_app. cbn [map].
    change (f 0%nat :: map f (seq 1 n) ++ [f (S n)])
      with ((f 0%nat :: map f (seq 1 n)) ++ [f (S n)]).
    rewrite removelast_last. cbn [app tl].
    apply removelast_last.
  - change (seq 0 (S (S n))) with (0%nat :: seq 1 (S n)).
    now rewrite (seq_S n 1).
Qed.

Lemma inject_Z_pos (z : Z) : (0 < z)%Z -> 0 < inject_Z z.
Proof. intros H. change (inject_Z 0 < inject_Z z). now rewrite <- Zlt_Qlt. Qed.

Lemma Qceiling_pos (q : Q) : 0 < q -> (1 <= Qceiling q)%Z.
Proof.
  intros H.
  assert (Hc : 0 < inject_Z (Qceiling q))
    by (eapply Qlt_le_trans; [exact H | apply Qle_ceiling]).
  change (inject_Z 0 < inject_Z (Qceiling q)) in Hc.
  rewrite <- Zlt_Qlt in Hc. lia.
Qed.

Lemma Qdiv_pos (a b : Q) : 0 < a -> 0 < b -> 0 < a / b.
Proof. intros Ha Hb. apply Qlt_shift_div_l; [exact Hb |]. now rewrite Qmult_0_l. Qed.

Lemma Qminus_pos (lo hi : Q) : lo < hi -> 0 < hi - lo.
Proof. intros H. exact (proj1 (Qlt_minus_iff lo hi) H). Qed.

Lemma parts_pos (lo hi res : Q) (max_len : Z) :
  lo < hi -> 0 < res -> (0 < max_len)%Z -> (1 <= parts lo hi res max_len)%Z.
Proof.
  intros Hlo Hres Hmax. apply Qceiling_pos.
  apply Qdiv_pos; [apply Qdiv_pos |]; auto using inject_Z_pos, Qminus_pos.
Qed.

(** The cuts of one axis: the inner points of the [linspace]. *)
Lemma axis_cuts_points (lo hi res : Q) (max_len : Z) :
  lo < hi -> 0 < res -> (0 < max_len)%Z ->
  let k := parts lo hi res max_len in
  axis_cuts lo hi res max_len
  = Ok (map (fun i => inject_Z (Z.of_nat i) * ((hi - lo) / inject_Z k) + lo)
            (seq 1 (Z.to_nat k - 1))).
Proof.
  intros Hlo Hres Hmax k.
  pose proof (parts_pos lo hi res max_len Hlo Hres Hmax) as Hk. fold k in Hk.
  unfold axis_cuts, py_div.
  rewrite (Qeq_bool_pos _ Hres). cbn [bind].
  rewrite (Qeq_bool_pos _ (inject_Z_pos _ Hmax)). cbn [bind].
  unfold np_ceil. change (Qceiling ((hi - lo) / res / inject_Z max_len)) with k.
  unfold linspace.
  replace (1 + k - 1)%Z with k by lia.
  destruct (Z.ltb_spec (1 + k) 0); [lia |].
  destruct (Z.ltb_spec 0 k); [| lia].
  destruct (Z.ltb_spec 1 (1 + k)); [| lia].
  cbn [bind]. f_equal.
  replace (Z.to_nat (1 + k)) with (S (S (Z.to_nat k - 1))) by lia.
  apply inner_linspace_points.
Qed.

Lemma evenly_spaced_points (lo hi : Q) (k : Z) :
  lo < hi -> (1 <= k)%Z ->
  evenly_spaced lo hi k
    (map (fun i => inject_Z (Z.of_nat i) * ((hi - lo) / inject_Z k) + lo)
         (seq 1 (Z.to_nat k - 1))).
Proof.
  intros Hlo Hk.
  set (t := (hi - lo) / inject_Z k).
  set (f := fun i => inject_Z (Z.of_nat i) * t + lo).
  assert (Hkq : 0 < inject_Z k) by (apply inject_Z_pos; lia).
  assert (Hd : 0 < hi - lo) by now apply Qminus_pos.
  assert (Ht : 0 < t) by now apply Qdiv_pos.
  assert (Hkt : inject_Z k * t == hi - lo).
  { unfold t. rewrite Qmult_div_r; [reflexivity |].
    intros E. rewrite E in Hkq. now apply Qlt_irrefl in Hkq. }
  assert (Hmono : forall i j, (i < j)%nat -> f i < f j).
  { intros i j Hij. unfold f.
    apply Qplus_lt_l, Qmult_lt_r; [exact Ht |].
    rewrite <- Zlt_Qlt. lia. }
  assert (Hnth : forall j, (j < Z.to_nat k - 1)%nat ->
            nth j (map f (seq 1 (Z.to_nat k - 1))) 0 = f (S j)).
  { intros j Hj.
    rewrite (nth_indep _ 0 (f 0%nat)) by now rewrite length_map, length_seq.
    rewrite map_nth, seq_nth by exact Hj. reflexivity. }
  unfold evenly_spaced. rewrite length_map, length_seq.
  split; [lia | split].
  - intros j Hj. rewrite (Hnth j Hj). repeat split.
    + unfold f. apply Qplus_comm.
    + apply Qle_lt_trans with (f 0%nat).
      * unfold f. cbn [Z.of_nat]. rewrite Qmult_0_l, Qplus_0_l. apply Qle_refl.
      * apply Hmono. lia.
    + apply Qlt_le_trans with (f (Z.to_nat k)).
      * apply Hmono. lia.
      * unfold f. rewrite Z2Nat.id by lia. rewrite Hkt.
        unfold Qminus. rewrite <- Qplus_assoc, (Qplus_comm (- lo)), Qplus_opp_r.
        rewrite Qplus_0_r. apply Qle_refl.
  - intros i j [Hij Hj]. rewrite (Hnth i), (Hnth j) by lia.
    apply Hmono. lia.
Qed.

(** ** The dimensions the tiler cuts by *)

Ltac bind_inv H :=
  match type of H with
  | bind ?m _ = Ok _ =>
      let E := fresh "E" in
      destruct m eqn:E; cbn [bind] in H; [| discriminate H | discriminate H]
  | (let '(_, _) := ?x in _) = Ok _ => destruct x
  end.

Lemma lookup_app (name : string) (e1 e2 : env) :
  lookup name (e1 ++ e2)
  = match lookup name e1 with Some v => Some v | None => lookup name e2 end.
Proof.
  induction e1 as [| [k v] e1 IH]; cbn [lookup app]; [reflexivity |].
  now destruct (String.eqb k name).
Qed.

(** A name that is no keyword of the call keeps the value it had. *)
Lemma bind_keywords_other (params : list string) (name : string) (kwargs : env) :
  ~ In name (map fst kwargs) ->
  forall bound e,
    bind_keywords params bound kwargs = Ok e -> lookup name e = lookup name bound.
Proof.
  induction kwargs as [| [k v] rest IH]; cbn [bind_keywords map fst In];
    intros Hname bound e H.
  - now injection H as <-.
  - destruct (negb (is_param params k)); [discriminate |].
    destruct (lookup k bound) eqn:Ek; [discriminate |].
    rewrite (IH (fun Hin => Hname (or_intror Hin)) _ _ H), lookup_app.
    destruct (lookup name bound); [reflexivity |].
    cbn [lookup]. destruct (String.eqb_spec k name) as [-> |]; [| reflexivity].
    elim Hname. now left.
Qed.

Lemma not_forwarded (name : string) (kwargs : env) :
  is_param split_geom_params name = true ->
  existsb (is_param split_geom_params) (map fst kwargs) = false ->
  ~ In name (map fst kwargs).
Proof.
  intros Hp Hex Hin.
  assert (existsb (is_param split_geom_params) (map fst kwargs) = true)
    by (apply existsb_exists; eauto).
  congruence.
Qed.

Lemma pixels_inv (lo hi res : Q) (w : Z) :
  pixels lo hi res = Ok w -> Qeq_bool res 0 = false /\ w = py_int ((hi - lo) / res).
Proof.
  unfold pixels, py_div. destruct (Qeq_bool res 0); cbn [bind]; [discriminate |].
  intros [= <-]. now split.
Qed.

Lemma measure_inv (args : list pyval) (kwargs : env) (m : measured) :
  measure args kwargs = Ok m ->
  exists e resv,
    bind_call get_dims_params get_dims_defaults args kwargs = Ok e
    /\ arg e "res" = Ok resv
    /\ as_num resv = Ok (m_res m)
    /\ let '(minx, miny, maxx, maxy) := m_bounds m in
       m_width m = py_int ((maxx - minx) / m_res m)
       /\ m_height m = py_int ((maxy - miny) / m_res m).
Proof.
  unfold measure. intros H.
  repeat bind_inv H.
  injection H as <-. cbn [m_res m_bounds m_width m_height].
  repeat match goal with
         | E : pixels _ _ _ = Ok _ |- _ => apply pixels_inv in E; destruct E as [_ E]
         end.
  eauto 8.
Qed.

(** The width and height that decide the split are those of the bounds
    [get_dims] returns, at the default resolution of [get_dims], 0.125:
    [split_geom] does not hand its [res] to [get_dims], and [**kwargs] cannot
    carry it. *)
Lemma tiler_dims_extent {shp : Shapely} (geometry : Geom) (kwargs : env)
    (minx miny maxx maxy : Q) (w h : Z) :
  tiler_dims geometry kwargs = Ok ((minx, miny, maxx, maxy), w, h) ->
  w = py_int ((maxx - minx) / (1 # 8)) /\ h = py_int ((maxy - miny) / (1 # 8)).
Proof.
  unfold tiler_dims, budget.
  destruct (existsb _ _) eqn:Ekw; [discriminate |].
  rewrite get_dims_unfold. intros H.
  apply get_dims_unfolded_minimum in H.
  destruct H as (m & Hm & Hb & -> & -> & _).
  apply measure_inv in Hm. destruct Hm as (e & resv & He & Hres & Hnum & Hext).
  rewrite <- Hb in Hext.
  assert (Hr : resv = VFloat (1 # 8)).
  { unfold bind_call in He. cbn [List.length Nat.ltb Nat.leb get_dims_params] in He.
    bind_inv He. injection He as <-.
    unfold arg in Hres. rewrite lookup_app in Hres.
    rewrite (bind_keywords_other _ "res" kwargs
               (not_forwarded "res" kwargs eq_refl Ekw) _ _ E) in Hres.
    cbn in Hres. congruence. }
  subst resv. cbn [as_num] in Hnum. injection Hnum as Hnum.
  now rewrite <- Hnum in Hext.
Qed.

Lemma py_int_pos (q : Q) : (0 < py_int q)%Z -> 0 < q.
Proof.
  destruct q as [n d]. unfold py_int, Qlt. cbn [Qnum Qden]. intros H.
  rewrite Z.mul_0_l, Z.mul_1_r.
  destruct (Z.lt_trichotomy n 0) as [Hn | [-> | Hn]]; [| discriminate | exact Hn].
  exfalso.
  assert (Hq : (0 <= Z.quot (- n) (Z.pos d))%Z) by (apply Z.quot_pos; lia).
  rewrite Z.quot_opp_l in Hq by discriminate. lia.
Qed.

Lemma extent_pos (lo hi : Q) (max_len : Z) :
  (0 < max_len)%Z -> (max_len < py_int ((hi - lo) / (1 # 8)))%Z -> lo < hi.
Proof.
  intros Hmax H.
  assert (Hq : 0 < (hi - lo) / (1 # 8)) by (apply py_int_pos; lia).
  apply Qlt_minus_iff. unfold Qdiv in Hq.
  apply (Qmult_lt_r _ _ (/ (1 # 8))); [reflexivity |].
  now rewrite Qmult_0_l.
Qed.

(** ** Placement and order of the cut lines *)

(** Where the code cuts.  When the width that [split_geom] tests (the one
    [get_dims] returns, at 0.125 units per pixel) exceeds [max_len], it places
    [ceil(width_units / res / max_len) - 1] vertical lines, evenly spaced and
    strictly between [minx] and [maxx], each from [(x, miny)] to [(x, maxy)];
    likewise horizontal lines for the height; an axis within [max_len] gets
    none.  The vertical lines come first, and each group is in increasing
    order of its coordinate. *)
Lemma cut_lines_placement {shp : Shapely} (geometry : Geom) (res : Q)
    (max_len : Z) (kwargs : env) (minx miny maxx maxy : Q) (w h : Z) :
  0 < res -> (0 < max_len)%Z ->
  tiler_dims geometry kwargs = Ok ((minx, miny, maxx, maxy), w, h) ->
  exists xs ys,
    tiler_lines geometry res max_len kwargs
    = Ok (map (fun x => [(x, miny); (x, maxy)]) xs
          ++ map (fun y => [(minx, y); (maxx, y)]) ys)
    /\ (if (max_len <? w)%Z
        then evenly_spaced minx maxx (parts minx maxx res max_len) xs
        else xs = [])
    /\ (if (max_len <? h)%Z
        then evenly_spaced miny maxy (parts miny maxy res max_len) ys
        else ys = []).
Proof.
  intros Hres Hmax Hdims.
  destruct (tiler_dims_extent _ _ _ _ _ _ _ _ Hdims) as [Hw Hh].
  unfold tiler_lines. rewrite Hdims. cbn [bind cut_lines].
  destruct (Z.ltb_spec max_len w) as [Hwide |];
    destruct (Z.ltb_spec max_len h) as [Htall |].
  - rewrite Hw in Hwide. rewrite Hh in Htall.
    apply (extent_pos _ _ _ Hmax) in Hwide, Htall.
    rewrite (axis_cuts_points _ _ _ _ Hwide Hres Hmax).
    rewrite (axis_cuts_points _ _ _ _ Htall Hres Hmax). cbn [bind].
    do 2 eexists. split; [reflexivity |].
    split; apply evenly_spaced_points; auto using parts_pos.
  - rewrite Hw in Hwide. apply (extent_pos _ _ _ Hmax) in Hwide.
    rewrite (axis_cuts_points _ _ _ _ Hwide Hres Hmax). cbn [bind].
    exists (map (fun i => inject_Z (Z.of_nat i)
                          * ((maxx - minx) / inject_Z (parts minx maxx res max_len))
                          + minx)
                (seq 1 (Z.to_nat (parts minx maxx res max_len) - 1))), [].
    split; [reflexivity |].
    split; [apply evenly_spaced_points; auto using parts_pos | reflexivity].
  - rewrite Hh in Htall. apply (extent_pos _ _ _ Hmax) in Htall.
    rewrite (axis_cuts_points _ _ _ _ Htall Hres Hmax). cbn [bind].
    exists [], (map (fun i => inject_Z (Z.of_nat i)
                          * ((maxy - miny) / inject_Z (parts miny maxy res max_len))
                          + miny)
                (seq 1 (Z.to_nat (parts miny maxy res max_len) - 1))).
    split; [reflexivity |].
    split; [reflexivity | apply evenly_spaced_points; auto using parts_pos].
  - exists [], []. repeat split.
Qed.

(** * Properties of the Polygon Tiler *)

Section TilerProperties.

Context {shp : Shapely}.

(** ** Frames *)

Lemma in_new_gdf (geoms : list Geom) (row : nat * Geom) :
  In row (new_gdf geoms) -> In (snd row) geoms.
Proof. destruct row as [l g]. apply in_combine_r. Qed.

Lemma labels_new_gdf (geoms : list Geom) :
  labels (new_gdf geoms) = seq 0 (List.length geoms).
Proof.
  unfold labels, new_gdf. generalize 0%nat.
  induction geoms as [| g geoms IH]; intros n; cbn; [reflexivity |].
  now rewrite IH.
Qed.

Lemma in_select (mask : Geom -> bool) (gdf : GeoDataFrame) (row : nat * Geom) :
  In row (select mask gdf) <-> In row gdf /\ mask (snd row) = true.
Proof. unfold select. apply filter_In. Qed.

Lemma NoDup_labels_select (mask : Geom -> bool) (gdf : GeoDataFrame) :
  NoDup (labels gdf) -> NoDup (labels (select mask gdf)).
Proof.
  unfold labels, select. induction gdf as [| [l g] gdf IH]; cbn; [trivial |].
  intros H. inversion H as [| ? ? Hl Hrest]; subst.
  destruct (mask g); cbn; auto.
  constructor; auto.
  intros Hin. apply Hl. apply in_map_iff in Hin.
  destruct Hin as ([l' g'] & <- & Hin). apply filter_In in Hin.
  apply in_map_iff. exists (l', g'). tauto.
Qed.

(** The candidate regions that pass the two filters carry distinct labels. *)
Lemma NoDup_labels_kept (geometry : Geom) (lines : list LineString) :
  NoDup (labels (kept_regions geometry (candidate_regions geometry lines))).
Proof.
  unfold kept_regions, candidate_regions.
  do 2 apply NoDup_labels_select.
  rewrite labels_new_gdf. apply seq_NoDup.
Qed.

Lemma label_determines_row (gdf : GeoDataFrame) (l : nat) (g g' : Geom) :
  NoDup (labels gdf) -> In (l, g) gdf -> In (l, g') gdf -> g = g'.
Proof.
  unfold labels. induction gdf as [| [k x] gdf IH]; cbn; [tauto |].
  intros H. inversion H as [| ? ? Hk Hrest]; subst.
  intros [E | Hin] [E' | Hin'].
  - congruence.
  - injection E as -> ->. elim Hk. apply in_map_iff. now exists (l, g').
  - injection E' as -> ->. elim Hk. apply in_map_iff. now exists (l, g).
  - now apply IH.
Qed.

Lemma labels_loc_set (gdf : GeoDataFrame) (l : nat) (g : Geom) :
  labels (loc_set gdf l g) = labels gdf.
Proof.
  unfold labels, loc_set. rewrite map_map. apply map_ext.
  intros [k x]. cbn. now destruct (Nat.eqb k l).
Qed.

(** [loc_set] leaves the rows with another label as they are. *)
Lemma loc_set_other (gdf : GeoDataFrame) (l : nat) (g : Geom) (row : nat * Geom) :
  fst row <> l -> (In row (loc_set gdf l g) <-> In row gdf).
Proof.
  intros Hl. unfold loc_set. rewrite in_map_iff. split.
  - intros ([k x] & E & Hin). cbn in E.
    destruct (Nat.eqb_spec k l); subst; [now elim Hl | exact Hin].
  - intros Hin. exists row. split; [| exact Hin].
    destruct (Nat.eqb_spec (fst row) l); [contradiction | reflexivity].
Qed.

(** ** Sliver absorption *)

(** One turn of the loop: the sliver is dropped, or it is unioned into a row
    of the frame that touches it. *)
Lemma absorb_sliver_cases (gdf : GeoDataFrame) (sliver : nat * Geom) :
  absorb_sliver gdf sliver = gdf
  \/ exists l g,
       In (l, g) gdf /\ touches g (snd sliver) = true
       /\ absorb_sliver gdf sliver = loc_set gdf l (union g (snd sliver)).
Proof.
  unfold absorb_sliver.
  destruct (select _ gdf) as [| [l g] nbs] eqn:E; [now left |].
  right. exists l, g.
  assert (Hin : In (l, g) (select (fun g => touches g (snd sliver)) gdf))
    by (rewrite E; now left).
  apply in_select in Hin. cbn [fst snd] in *. tauto.
Qed.

Lemma labels_absorb_sliver (gdf : GeoDataFrame) (sliver : nat * Geom) :
  labels (absorb_sliver gdf sliver) = labels gdf.
Proof.
  destruct (absorb_sliver_cases gdf sliver) as [-> | (l & g & _ & _ & ->)];
    [reflexivity | apply labels_loc_set].
Qed.

(** The loop never adds, removes or relabels a row. *)
Lemma labels_absorb (slivers gdf : GeoDataFrame) :
  labels (absorb gdf slivers) = labels gdf.
Proof.
  unfold absorb. revert gdf.
  induction slivers as [| s slivers IH]; intros gdf; cbn [fold_left];
    [reflexivity |].
  now rewrite IH, labels_absorb_sliver.
Qed.

Lemma in_labels (gdf : GeoDataFrame) (l : nat) (g : Geom) :
  In (l, g) gdf -> In l (labels gdf).
Proof. intros H. apply in_map_iff. now exists (l, g). Qed.

(** A label is the label of a tile or of a sliver, never of both. *)
Lemma tile_is_no_sliver (regions : GeoDataFrame) (l : nat) :
  NoDup (labels regions) ->
  In l (labels (tiles_of regions)) -> ~ In l (labels (slivers_of regions)).
Proof.
  intros Hnd Ht Hs. unfold labels in Ht, Hs.
  apply in_map_iff in Ht, Hs.
  destruct Ht as ([l1 g] & E1 & Ht). destruct Hs as ([l2 g'] & E2 & Hs).
  cbn in E1, E2. subst l1 l2.
  apply in_select in Ht, Hs. cbn [snd] in Ht, Hs.
  destruct Ht as [Hin Ht], Hs as [Hin' Hs].
  rewrite (label_determines_row _ _ _ _ Hnd Hin' Hin) in Hs.
  apply Qltb_lt in Hs. apply Qle_bool_iff in Ht.
  exact (Qlt_not_le _ _ Hs Ht).
Qed.

(** C9.  In the absorption loop of [split_geom], after any slivers [done]
    have been processed, a turn for a sliver [s] leaves the frame with the
    rows of the tiles (the regions of area at least 100) and either drops
    [s] or unions it, in place, into one row that touches it.  That row is a
    tile and no sliver, and the rows with another label are untouched: a
    sliver is never merged into a sliver. *)
Theorem sliver_merge_targets (geometry : Geom) (lines : list LineString)
    (done : GeoDataFrame) (s : nat * Geom) :
  let regions := kept_regions geometry (candidate_regions geometry lines) in
  let gdf := absorb (tiles_of regions) done in
  In s (slivers_of regions) ->
  labels (absorb_sliver gdf s) = labels (tiles_of regions)
  /\ ~ In (fst s) (labels gdf)
  /\ (absorb_sliver gdf s = gdf
      \/ exists l g,
           In (l, g) gdf /\ touches g (snd s) = true
           /\ (exists g0, In (l, g0) regions /\ 100 <= area g0)
           /\ ~ In l (labels (slivers_of regions))
           /\ absorb_sliver gdf s = loc_set gdf l (union g (snd s))
           /\ (forall row, fst row <> l ->
                 (In row (absorb_sliver gdf s) <-> In row gdf))).
Proof.
  intros regions gdf Hs.
  pose proof (NoDup_labels_kept geometry lines) as Hnd. fold regions in Hnd.
  assert (Hlab : labels gdf = labels (tiles_of regions))
    by apply labels_absorb.
  split; [now rewrite labels_absorb_sliver |].
  split.
  - rewrite Hlab. intros Ht.
    apply (tile_is_no_sliver regions (fst s) Hnd Ht).
    destruct s as [l g]. exact (in_labels _ _ _ Hs).
  - destruct (absorb_sliver_cases gdf s) as [E | (l & g & Hin & Htouch & E)];
      [now left | right].
    exists l, g.
    assert (Ht : In l (labels (tiles_of regions)))
      by (rewrite <- Hlab; exact (in_labels _ _ _ Hin)).
    repeat split; try assumption.
    + unfold labels in Ht. apply in_map_iff in Ht.
      destruct Ht as ([l' g0] & El & Ht). cbn in El. subst l'.
      apply in_select in Ht. cbn [snd] in Ht.
      exists g0. split; [tauto | now apply Qle_bool_iff].
    + now apply tile_is_no_sliver.
    + rewrite E. intros Hrow. now apply loc_set_other in Hrow.
    + rewrite E. intros Hrow. now apply loc_set_other.
Qed.

(** ** The single-tile path *)

(** C8.  When no cut line is generated, [split_geom] returns the input
    geometry alone and as it is, whatever the buffer; the buffer is applied
    only when there are cut lines, and then to every returned row. *)
Theorem no_cut_lines_no_buffer (geometry : Geom) (crs : string) (res : Q)
    (max_len b : Z) (kwargs : env) (lines : list LineString) :
  tiler_lines geometry res max_len kwargs = Ok lines ->
  (lines = [] ->
   split_geom geometry crs res max_len b kwargs = Ok [(0%nat, geometry)])
  /\ (lines <> [] ->
      exists gdf,
        split_geom geometry crs res max_len b kwargs
        = Ok (reset_index (buffer_all b gdf))).
Proof.
  intros Hlines. unfold split_geom. rewrite Hlines. cbn [bind].
  split.
  - now intros ->.
  - destruct lines as [| l lines]; [now intros [] | intros _].
    unfold multi_tile. eexists. reflexivity.
Qed.

(** ** Polygons below the minimum extent *)

Lemma measure_defaults (b : Bounds) :
  measure [bounds_val b] []
  = measure [bounds_val b; VFloat (1 # 8)]
            [("padding", VNone); ("min_len", VInt 256)]%string.
Proof. reflexivity. Qed.

(** With the default arguments of [get_dims], a polygon whose bounds are
    less than 256 pixels wide at 0.125 (narrower than 32 units) makes
    [split_geom] raise, whatever the resolution, [max_len] and buffer. *)
Lemma split_geom_narrow_raises (geometry : Geom) (crs : string) (res : Q)
    (max_len b : Z) (minx miny maxx maxy : Q) :
  geom_bounds geometry = (minx, miny, maxx, maxy) ->
  (py_int ((maxx - minx) / (1 # 8)) < 256)%Z ->
  split_geom geometry crs res max_len b [] = Raise TypeError.
Proof.
  intros Hb Hw. unfold split_geom, tiler_lines, tiler_dims, budget.
  cbn [map existsb]. rewrite Hb, get_dims_unfold. unfold get_dims_unfolded.
  rewrite measure_defaults, (measure_no_padding _ _ _ _ _ _ (eq_refl : 0 < 1 # 8)).
  cbn [bind m_width m_height m_min_len m_bounds].
  rewrite Qltb_inject_Z. apply Z.ltb_lt in Hw. now rewrite Hw.
Qed.

(** ** Areas of the returned tiles *)

Section Areas.

(** The laws of the capability that the area bound rests on: a union is at
    least as large as its first operand, and a buffer that is not negative
    does not shrink a geometry. *)
Hypothesis union_grows : forall g h : Geom, area g <= area (union g h).
Hypothesis buffer_grows :
  forall (g : Geom) (d : Z), (0 <= d)%Z -> area g <= area (buffer g d).

Lemma tile_sized_tiles_of (gdf : GeoDataFrame) :
  Forall tile_sized (tiles_of gdf).
Proof.
  apply Forall_forall. intros row Hin. apply in_select in Hin.
  now apply Qle_bool_iff.
Qed.

Lemma tile_sized_loc_set (gdf : GeoDataFrame) (l : nat) (g : Geom) :
  100 <= area g -> Forall tile_sized gdf -> Forall tile_sized (loc_set gdf l g).
Proof.
  intros Hg H. unfold loc_set. apply Forall_map.
  eapply Forall_impl; [| exact H].
  intros [k x] Hx. cbn [fst]. now destruct (Nat.eqb k l).
Qed.

Lemma tile_sized_absorb_sliver (gdf : GeoDataFrame) (s : nat * Geom) :
  Forall tile_sized gdf -> Forall tile_sized (absorb_sliver gdf s).
Proof.
  intros H.
  destruct (absorb_sliver_cases gdf s) as [-> | (l & g & Hin & _ & ->)];
    [exact H |].
  apply tile_sized_loc_set; [| exact H].
  apply Qle_trans with (area g); [| apply union_grows].
  rewrite Forall_forall in H. exact (H _ Hin).
Qed.

Lemma tile_sized_absorb (slivers gdf : GeoDataFrame) :
  Forall tile_sized gdf -> Forall tile_sized (absorb gdf slivers).
Proof.
  unfold absorb. revert gdf.
  induction slivers as [| s slivers IH]; intros gdf H; cbn [fold_left];
    [exact H |].
  apply IH. now apply tile_sized_absorb_sliver.
Qed.

(** C5, as the code has it.  When at least one cut line is generated and
    the buffer is not negative, every returned tile has an area of at least
    100: the regions below 100 are set apart as slivers before the loop, and
    unions and buffers only add area. *)
Theorem multi_tile_area (geometry : Geom) (crs : string) (res : Q)
    (max_len b : Z) (kwargs : env) (l : LineString) (lines : list LineString) :
  (0 <= b)%Z ->
  tiler_lines geometry res max_len kwargs = Ok (l :: lines) ->
  exists gdf,
    split_geom geometry crs res max_len b kwargs = Ok gdf
    /\ forall row, In row gdf -> 100 <= area (snd row).
Proof.
  intros Hb Hlines. unfold split_geom. rewrite Hlines. cbn [bind].
  eexists. split; [reflexivity |].
  intros row Hin. unfold multi_tile, reset_index in Hin.
  apply in_new_gdf in Hin. unfold geometries, buffer_all in Hin.
  rewrite map_map in Hin. cbn [snd] in Hin.
  apply in_map_iff in Hin. destruct Hin as (r & <- & Hin).
  apply Qle_trans with (area (snd r)); [| now apply buffer_grows].
  change (tile_sized r).
  revert r Hin. apply Forall_forall.
  apply tile_sized_absorb, tile_sized_tiles_of.
Qed.

End Areas.

End TilerProperties.

(** * The tiler on boxes *)

(** ** The area laws hold on boxes *)

Lemma pos_nonneg (x : Q) : 0 <= Boxes.pos x.
Proof.
  unfold Boxes.pos. destruct (Qle_bool 0 x) eqn:E.
  - now apply Qle_bool_iff.
  - apply Qle_refl.
Qed.

Lemma pos_mono (x y : Q) : x <= y -> Boxes.pos x <= Boxes.pos y.
Proof.
  intros H. unfold Boxes.pos.
  destruct (Qle_bool 0 x) eqn:Ex; destruct (Qle_bool 0 y) eqn:Ey;
    try apply Qle_bool_iff in Ex; try apply Qle_bool_iff in Ey.
  - exact H.
  - assert (Qle_bool 0 y = true)
      by (apply Qle_bool_iff; now apply Qle_trans with x).
    congruence.
  - exact Ey.
  - apply Qle_refl.
Qed.

Lemma Qadd_nonneg (a b : Q) : 0 <= a -> 0 <= b -> 0 <= a + b.
Proof. intros Ha Hb. change (0 + 0 <= a + b). now apply Qplus_le_compat. Qed.

Lemma Qle_add_nonneg (a b : Q) : 0 <= b -> a <= a + b.
Proof.
  intros Hb. apply Qle_trans with (a + 0).
  - rewrite Qplus_0_r. apply Qle_refl.
  - apply Qplus_le_compat; [apply Qle_refl | exact Hb].
Qed.

Lemma box_area_nonneg (b : Boxes.Box) : 0 <= Boxes.box_area b.
Proof.
  destruct b as [[[x0 y0] x1] y1]. unfold Boxes.box_area.
  apply Qmult_le_0_compat; apply pos_nonneg.
Qed.

Lemma boxes_area_nonneg (g : list Boxes.Box) : 0 <= Boxes.boxes_area g.
Proof.
  induction g as [| b g IH]; cbn [Boxes.boxes_area fold_right];
    [apply Qle_refl |].
  apply Qadd_nonneg; [apply box_area_nonneg | exact IH].
Qed.

Lemma boxes_union_grows (g h : list Boxes.Box) :
  Boxes.boxes_area g <= Boxes.boxes_area (g ++ h).
Proof.
  induction g as [| b g IH]; cbn [app Boxes.boxes_area fold_right].
  - apply boxes_area_nonneg.
  - apply Qplus_le_compat; [apply Qle_refl | exact IH].
Qed.

Lemma box_grow_grows (d : Z) (b : Boxes.Box) :
  (0 <= d)%Z -> Boxes.box_area b <= Boxes.box_area (Boxes.grow d b).
Proof.
  intros Hd. destruct b as [[[x0 y0] x1] y1].
  assert (HD : 0 <= inject_Z d)
    by (change (inject_Z 0 <= inject_Z d); now rewrite <- Zle_Qle).
  unfold Boxes.grow, Boxes.box_area.
  assert (Hgrow : forall lo hi, hi - lo <= hi + inject_Z d - (lo - inject_Z d)).
  { intros lo hi.
    setoid_replace (hi + inject_Z d - (lo - inject_Z d))
      with ((hi - lo) + (inject_Z d + inject_Z d)) by ring.
    now apply Qle_add_nonneg, Qadd_nonneg. }
  apply Qle_trans with (Boxes.pos (x1 + inject_Z d - (x0 - inject_Z d))
                        * Boxes.pos (y1 - y0)).
  - apply Qmult_le_compat_r; [apply pos_mono, Hgrow | apply pos_nonneg].
  - rewrite !(Qmult_comm (Boxes.pos (x1 + inject_Z d - (x0 - inject_Z d)))).
    apply Qmult_le_compat_r; [apply pos_mono, Hgrow | apply pos_nonneg].
Qed.

Lemma boxes_buffer_grows (g : list Boxes.Box) (d : Z) :
  (0 <= d)%Z -> Boxes.boxes_area g <= Boxes.boxes_area (map (Boxes.grow d) g).
Proof.
  intros Hd.
  induction g as [| b g IH]; cbn [map Boxes.boxes_area fold_right];
    [apply Qle_refl |].
  apply Qplus_le_compat; [now apply box_grow_grows | exact IH].
Qed.

(** ** The tiler run on concrete polygons *)

(** C2.  [split_geom(square 400, crs, res=0.0625, max_len=4000)]: at the
    resolution given to [split_geom] the square is 6400 pixels wide, above
    [max_len]; the width that decides the split is 3200, computed by
    [get_dims] at its default resolution 0.125, and the square is returned
    uncut. *)
Theorem tiler_ignores_res :
  resolve (0, 0, 400, 400) (1 # 16) 256 VNone
    = Ok ((0, 0, 400, 400), 6400%Z, 6400%Z)
  /\ tiler_dims (Boxes.square 400) []
     = Ok ((0, 0, 400, 400), 3200%Z, 3200%Z)
  /\ split_geom (Boxes.square 400) "EPSG:25832" (1 # 16) 4000 0 []
     = Ok [(0%nat, Boxes.square 400)].
Proof. repeat split; vm_compute; reflexivity. Qed.

(** C3.  [split_geom(square 10, crs, res=1)]: a well-formed polygon, a
    positive resolution; the bounds are 80 pixels wide at 0.125, below the
    minimum of 256, and the corrective call of [get_dims] raises. *)
Theorem split_geom_small_polygon_raises :
  split_geom (Boxes.square 10) "EPSG:25832" 1 4000 0 [] = Raise TypeError.
Proof. vm_compute. reflexivity. Qed.

(** C4.  Bounds within [max_len] at the given resolution do not make a
    single tile: a square of 4000.5 units at [res=1] is 4000 pixels wide,
    within [max_len=4000], yet gets one cut line per axis and is returned in
    four tiles; a square of 10 units raises.
    The scenario of the design document, a square of 1000 units, does yield
    the input alone. *)
Theorem within_limit_not_single_tile :
  (resolve (0, 0, 8001 # 2, 8001 # 2) 1 256 VNone
     = Ok ((0, 0, 8001 # 2, 8001 # 2), 4000%Z, 4000%Z)
   /\ (exists l0 l1,
         tiler_lines (Boxes.square (8001 # 2)) 1 4000 [] = Ok [l0; l1])
   /\ exists t0 t1 t2 t3,
        split_geom (Boxes.square (8001 # 2)) "EPSG:25832" 1 4000 0 []
        = Ok [t0; t1; t2; t3])
  /\ split_geom (Boxes.square 10) "EPSG:25832" 1 4000 0 [] = Raise TypeError
  /\ split_geom (Boxes.square 1000) "EPSG:25832" 1 4000 0 []
     = Ok [(0%nat, Boxes.square 1000)].
Proof.
  repeat split; try (vm_compute; reflexivity).
  - vm_compute. do 2 eexists. reflexivity.
  - vm_compute. do 4 eexists. reflexivity.
Qed.

(** C6.  The width that decides the cuts is not the width at the
    resolution of [split_geom].  A square of 400 units at [res=0.0625],
    [max_len=4000] is 6400 pixels wide, above [max_len], and
    [ceil(400 / 0.0625 / 4000) - 1 = 1] vertical line is due; [split_geom]
    tests 3200 pixels (0.125 units per pixel) and places no line.  A square
    of 20 units at [res=1/1024] is 20480 pixels wide and five lines are due;
    [split_geom] raises.  Where the tested width does exceed [max_len] the
    lines are as described: a square of 1000 units at [res=1], [max_len=400]
    gets two vertical lines from [miny] to [maxy], then two horizontal
    ones, at the thirds. *)
Theorem cut_lines_tested_at_default_resolution :
  (resolve (0, 0, 400, 400) (1 # 16) 256 VNone
     = Ok ((0, 0, 400, 400), 6400%Z, 6400%Z)
   /\ parts 0 400 (1 # 16) 4000 = 2%Z
   /\ tiler_dims (Boxes.square 400) [] = Ok ((0, 0, 400, 400), 3200%Z, 3200%Z)
   /\ tiler_lines (Boxes.square 400) (1 # 16) 4000 [] = Ok [])
  /\ (resolve (0, 0, 20, 20) (1 # 1024) 256 VNone
        = Ok ((0, 0, 20, 20), 20480%Z, 20480%Z)
      /\ parts 0 20 (1 # 1024) 4000 = 6%Z
      /\ tiler_lines (Boxes.square 20) (1 # 1024) 4000 [] = Raise TypeError)
  /\ tiler_lines (Boxes.square 1000) 1 400 []
     = Ok [[(1000 # 3, 0); (1000 # 3, 1000)];
           [(2000 # 3, 0); (2000 # 3, 1000)];
           [(0, 1000 # 3); (1000, 1000 # 3)];
           [(0, 2000 # 3); (1000, 2000 # 3)]].
Proof. repeat split; vm_compute; reflexivity. Qed.

(** C5 fails on the single-tile path: a polygon of area below 100 whose
    bounds need no cut is returned as the only tile.  First a two-part
    polygon of area 2 with the default arguments, then a square of area 25
    with [min_len=1] forwarded to [get_dims]. *)
Lemma small_polygon_returned_as_tile :
  (exists gdf row,
     split_geom Boxes.specks "EPSG:25832" 1 4000 0 [] = Ok gdf
     /\ In row gdf /\ area (snd row) < 100)
  /\ (exists gdf row,
        split_geom (Boxes.square 5) "EPSG:25832" 1 4000 0
                   [("min_len"%string, VInt 1)] = Ok gdf
        /\ In row gdf /\ area (snd row) < 100).
Proof.
  split.
  - exists [(0%nat, Boxes.specks)], (0%nat, Boxes.specks).
    split; [vm_compute; reflexivity | split; [now left | reflexivity]].
  - exists [(0%nat, Boxes.square 5)], (0%nat, Boxes.square 5).
    split; [vm_compute; reflexivity | split; [now left | reflexivity]].
Qed.

Lemma multi_tile_area_witness :
  (0 <= 5)%Z
  /\ exists gdf,
       split_geom (Boxes.square 1000) "EPSG:25832" 1 400 5 [] = Ok gdf
       /\ forall row, In row gdf -> 100 <= area (snd row).
Proof.
  split; [lia |].
  eapply (multi_tile_area (shp := Boxes.shapely)
            boxes_union_grows boxes_buffer_grows
            (Boxes.square 1000) "EPSG:25832" 1 400 5 []).
  - lia.
  - vm_compute. reflexivity.
Defined.

Lemma cut_lines_placement_witness :
  0 < 1 /\ (0 < 400)%Z
  /\ tiler_dims (Boxes.square 1000) [] = Ok ((0, 0, 1000, 1000), 8000%Z, 8000%Z)
  /\ exists xs ys,
       tiler_lines (Boxes.square 1000) 1 400 []
       = Ok (map (fun x => [(x, 0); (x, 1000)]) xs
             ++ map (fun y => [(0, y); (1000, y)]) ys)
       /\ evenly_spaced 0 1000 (parts 0 1000 1 400) xs
       /\ evenly_spaced 0 1000 (parts 0 1000 1 400) ys.
Proof.
  split; [reflexivity |]. split; [reflexivity |].
  split; [vm_compute; reflexivity |].
  exact (cut_lines_placement (shp := Boxes.shapely) (Boxes.square 1000)
           1 400 [] 0 0 1000 1000 8000 8000 eq_refl eq_refl eq_refl).
Defined.

Lemma no_cut_lines_no_buffer_witness :
  tiler_lines (Boxes.square 1000) 1 4000 [] = Ok []
  /\ split_geom (Boxes.square 1000) "EPSG:25832" 1 4000 5 []
     = Ok [(0%nat, Boxes.square 1000)].
Proof.
  split; [vm_compute; reflexivity |].
  apply (proj1 (no_cut_lines_no_buffer (shp := Boxes.shapely)
                  (Boxes.square 1000) "EPSG:25832" 1 4000 5 [] []
                  eq_refl)).
  reflexivity.
Defined.

(** The annexed square at [res=1], [max_len=600]: one vertical and one
    horizontal cut; the annex comes out as the one sliver, row 6, and is
    unioned into a tile. *)
Lemma sliver_merge_targets_witness :
  tiler_lines Boxes.annexed 1 600 []
    = Ok [vline 0 1000 (1005 # 2); hline 0 1005 (1000 # 2)]
  /\ In (6%nat, [(1000, 0, 1005, 10)])
        (slivers_of
           (kept_regions Boxes.annexed
              (candidate_regions Boxes.annexed
                 [vline 0 1000 (1005 # 2); hline 0 1005 (1000 # 2)])))
  /\ labels
       (absorb_sliver
          (absorb
             (tiles_of
                (kept_regions Boxes.annexed
                   (candidate_regions Boxes.annexed
                      [vline 0 1000 (1005 # 2); hline 0 1005 (1000 # 2)])))
             [])
          (6%nat, [(1000, 0, 1005, 10)]))
     = labels
         (tiles_of
            (kept_regions Boxes.annexed
               (candidate_regions Boxes.annexed
                  [vline 0 1000 (1005 # 2); hline 0 1005 (1000 # 2)]))).
Proof.
  split; [vm_compute; reflexivity |].
  assert (Hs : In (6%nat, [(1000, 0, 1005, 10)])
                 (slivers_of
                    (kept_regions Boxes.annexed
                       (candidate_regions Boxes.annexed
                          [vline 0 1000 (1005 # 2); hline 0 1005 (1000 # 2)]))))
    by (vm_compute; left; reflexivity).
  split; [exact Hs |].
  exact (proj1 (sliver_merge_targets (shp := Boxes.shapely) Boxes.annexed
                  [vline 0 1000 (1005 # 2); hline 0 1005 (1000 # 2)]
                  [] (6%nat, [(1000, 0, 1005, 10)]) Hs)).
Defined.

(** The sliver of the annexed square ends in the fourth tile. *)
Example annexed_square_tiles :
  exists gdf,
    split_geom Boxes.annexed "EPSG:25832" 1 600 0 [] = Ok gdf
    /\ List.length gdf = 6%nat
    /\ nth_error (geometries gdf) 3
       = Some [(1005 # 2, 0, 1000, 10); (1000, 0, 1005, 10)].
Proof. eexists. repeat split; vm_compute; reflexivity. Qed.

(** The scenario of a square of 20000 units at [res=1], [max_len=4000]:
    25 tiles that add up to the area of the square. *)
Example square_20000_tiles :
  exists gdf,
    split_geom (Boxes.square 20000) "EPSG:25832" 1 4000 0 [] = Ok gdf
    /\ List.length gdf = 25%nat
    /\ fold_right (fun g acc => area g + acc) 0 (geometries gdf) == 400000000.
Proof. eexists. repeat split; vm_compute; reflexivity. Qed.

(** * Further properties of the Dimension Resolver *)

(** ** What a returning call has computed *)

Lemma measure_resolve_fields (b : Bounds) (res : Q) (min_len : Z)
    (padding : pyval) (m : measured) :
  measure [bounds_val b; VFloat res]
          [("padding", padding); ("min_len", VInt min_len)]%string = Ok m ->
  m_res m = res /\ m_min_len m = inject_Z min_len
  /\ Qeq_bool res 0 = false
  /\ let '(x0, y0, x1, y1) := m_bounds m in
     m_width m = py_int ((x1 - x0) / res)
     /\ m_height m = py_int ((y1 - y0) / res).
Proof.
  intros H. destruct b as [[[minx miny] maxx] maxy]. cbn in H.
  repeat bind_inv H. injection H as <-.
  cbn [m_res m_min_len m_bounds m_width m_height].
  repeat match goal with
         | E : pixels _ _ _ = Ok _ |- _ =>
             apply pixels_inv in E; destruct E as [? E]
         end.
  auto.
Qed.

Lemma resolve_inv (b : Bounds) (res : Q) (min_len : Z) (padding : pyval)
    (x0 y0 x1 y1 : Q) (w h : Z) :
  resolve b res min_len padding = Ok ((x0, y0, x1, y1), w, h) ->
  Qeq_bool res 0 = false
  /\ w = py_int ((x1 - x0) / res) /\ h = py_int ((y1 - y0) / res)
  /\ (min_len <= w)%Z /\ (min_len <= h)%Z.
Proof.
  unfold resolve, budget. rewrite get_dims_unfold. intros H.
  apply get_dims_unfolded_minimum in H.
  destruct H as (m & Hm & Hb & Hw & Hh & Hminw & Hminh).
  apply measure_resolve_fields in Hm.
  destruct Hm as (_ & Hml & Hres & Hext).
  rewrite <- Hb in Hext. destruct Hext as [Ew Eh].
  rewrite Hml in Hminw, Hminh. rewrite <- Zle_Qle in Hminw, Hminh.
  repeat split; congruence || assumption.
Qed.

(** ** Padding *)

Lemma measure_padded (minx miny maxx maxy res : Q) (min_len py px : Z) :
  0 < res ->
  measure [bounds_val (minx, miny, maxx, maxy); VFloat res]
          [("padding", VTuple [VInt py; VInt px]); ("min_len", VInt min_len)]%string
  = Ok (Measured
          (minx - inject_Z px, miny - inject_Z py,
           maxx + inject_Z px, maxy + inject_Z py)
          (py_int ((maxx + inject_Z px - (minx - inject_Z px)) / res))
          (py_int ((maxy + inject_Z py - (miny - inject_Z py)) / res))
          res (inject_Z min_len)).
Proof. intros Hres. cbn. now rewrite !(pixels_pos _ _ _ Hres). Qed.

(** X1.  [get_dims] with a padding pair: the first component pads the y
    axis and the second the x axis, on both sides.  The call returns the
    padded bounds with their pixel extent when both axes reach [min_len] and
    raises [TypeError] otherwise; the bounds are never grown beyond the
    padding asked for.  An integer padding [p] is the pair [(p, p)]. *)
Theorem resolve_padded (minx miny maxx maxy res : Q) (min_len py px : Z) :
  0 < res ->
  let x0 := minx - inject_Z px in
  let y0 := miny - inject_Z py in
  let x1 := maxx + inject_Z px in
  let y1 := maxy + inject_Z py in
  let w := py_int ((x1 - x0) / res) in
  let h := py_int ((y1 - y0) / res) in
  resolve (minx, miny, maxx, maxy) res min_len (VTuple [VInt py; VInt px])
  = (if ((w <? min_len) || (h <? min_len))%Z
     then Raise TypeError
     else Ok ((x0, y0, x1, y1), w, h))
  /\ forall p,
       resolve (minx, miny, maxx, maxy) res min_len (VInt p)
       = resolve (minx, miny, maxx, maxy) res min_len (VTuple [VInt p; VInt p]).
Proof.
  intros Hres x0 y0 x1 y1 w h. split.
  - unfold resolve, budget. rewrite get_dims_unfold. unfold get_dims_unfolded.
    rewrite (measure_padded _ _ _ _ _ _ _ _ Hres).
    cbn [bind m_width m_height m_min_len m_bounds].
    rewrite !Qltb_inject_Z. fold x0 y0 x1 y1. fold w h.
    destruct (w <? min_len)%Z; [reflexivity |].
    destruct (h <? min_len)%Z; reflexivity.
  - intros p. unfold resolve, budget. rewrite !get_dims_unfold.
    reflexivity.
Qed.

Lemma resolve_padded_witness :
  0 < 1
  /\ resolve (0, 0, 1000, 500) 1 256 (VTuple [VInt 10; VInt 20])
     = Ok ((0 - 20, 0 - 10, 1000 + 20, 500 + 10), 1040%Z, 520%Z).
Proof.
  split; [reflexivity |].
  exact (proj1 (resolve_padded 0 0 1000 500 1 256 10 20 eq_refl)).
Defined.

(** X2.  Paddings [get_dims] does not support.  A float padding matches
    neither [isinstance] test, so the buffers are never assigned and the call
    raises [UnboundLocalError]; a tuple that is not a pair raises
    [ValueError]; both whatever the bounds and the resolution. *)
Theorem resolve_unsupported_padding (b : Bounds) (res : Q) (min_len : Z) :
  (forall q, resolve b res min_len (VFloat q) = Raise UnboundLocalError)
  /\ (forall items,
        List.length items <> 2%nat ->
        resolve b res min_len (VTuple items) = Raise ValueError).
Proof.
  destruct b as [[[minx miny] maxx] maxy]. split.
  - intros q. reflexivity.
  - intros items Hlen. unfold resolve, budget. rewrite get_dims_unfold.
    destruct items as [| a [| c [| d items]]]; try reflexivity.
    now elim Hlen.
Qed.

Lemma resolve_unsupported_padding_witness :
  resolve (0, 0, 1000, 1000) 1 256 (VFloat 5) = Raise UnboundLocalError
  /\ resolve (0, 0, 1000, 1000) 1 256 (VTuple [VInt 5; VInt 5; VInt 5])
     = Raise ValueError.
Proof.
  split.
  - exact (proj1 (resolve_unsupported_padding (0, 0, 1000, 1000) 1 256) 5).
  - apply (proj2 (resolve_unsupported_padding (0, 0, 1000, 1000) 1 256)).
    cbn. discriminate.
Defined.

(** X3.  A resolution of zero: with no padding, an integer padding or a
    pair of integers, [get_dims] raises [ZeroDivisionError]. *)
Theorem resolve_zero_resolution (b : Bounds) (res : Q) (min_len : Z) :
  res == 0 ->
  resolve b res min_len VNone = Raise ZeroDivisionError
  /\ (forall p, resolve b res min_len (VInt p) = Raise ZeroDivisionError)
  /\ (forall py px,
        resolve b res min_len (VTuple [VInt py; VInt px])
        = Raise ZeroDivisionError).
Proof.
  intros Hres. apply Qeq_bool_iff in Hres.
  destruct b as [[[minx miny] maxx] maxy].
  repeat split; intros; unfold resolve, budget; rewrite get_dims_unfold;
    unfold get_dims_unfolded; cbn; unfold pixels, py_div; now rewrite Hres.
Qed.

Lemma resolve_zero_resolution_witness :
  0 == 0
  /\ resolve (0, 0, 1000, 1000) 0 256 VNone = Raise ZeroDivisionError.
Proof.
  split; [reflexivity |].
  exact (proj1 (resolve_zero_resolution (0, 0, 1000, 1000) 0 256 (Qeq_refl 0))).
Defined.

(** ** Resolving again *)

Lemma pixels_nonzero (lo hi res : Q) :
  Qeq_bool res 0 = false -> pixels lo hi res = Ok (py_int ((hi - lo) / res)).
Proof. intros H. unfold pixels, py_div. now rewrite H. Qed.

(** X23.  What [get_dims] returns is stable: the returned width and height
    are at least [min_len], and resolving the returned bounds again, at the
    same resolution and without padding, returns the same bounds, width and
    height. *)
Theorem resolve_again (b : Bounds) (res : Q) (min_len : Z) (padding : pyval)
    (b' : Bounds) (w h : Z) :
  resolve b res min_len padding = Ok (b', w, h) ->
  (min_len <= w)%Z /\ (min_len <= h)%Z
  /\ resolve b' res min_len VNone = Ok (b', w, h).
Proof.
  intros H. destruct b' as [[[x0 y0] x1] y1].
  apply resolve_inv in H. destruct H as (Hres & -> & -> & Hw & Hh).
  repeat split; try assumption.
  unfold resolve, budget. rewrite get_dims_unfold. unfold get_dims_unfolded.
  cbn. rewrite !Qminus_0_eq, !Qplus_0_eq, !(pixels_nonzero _ _ _ Hres).
  cbn [bind m_width m_height m_min_len m_bounds].
  rewrite !Qltb_inject_Z.
  apply Z.ltb_ge in Hw, Hh. now rewrite Hw, Hh.
Qed.

Lemma resolve_again_witness :
  resolve (0, 0, 1000, 500) 1 256 (VInt 10)
    = Ok ((0 - 10, 0 - 10, 1000 + 10, 500 + 10), 1020%Z, 520%Z)
  /\ (256 <= 1020)%Z /\ (256 <= 520)%Z
  /\ resolve (0 - 10, 0 - 10, 1000 + 10, 500 + 10) 1 256 VNone
     = Ok ((0 - 10, 0 - 10, 1000 + 10, 500 + 10), 1020%Z, 520%Z).
Proof.
  assert (H : resolve (0, 0, 1000, 500) 1 256 (VInt 10)
              = Ok ((0 - 10, 0 - 10, 1000 + 10, 500 + 10), 1020%Z, 520%Z))
    by reflexivity.
  split; [exact H |].
  exact (resolve_again _ _ _ _ _ _ _ H).
Defined.

(** * Further properties of the Polygon Tiler *)

Section TilerMore.

Context {shp : Shapely}.

(** ** Keyword arguments *)

Lemma bind_keywords_foreign (params : list string) (k : string) (kwargs : env) :
  In k (map fst kwargs) ->
  forall bound,
    is_param params k = false \/ lookup k bound <> None ->
    bind_keywords params bound kwargs = Raise TypeError.
Proof.
  induction kwargs as [| [k0 v0] rest IH]; cbn [map fst In bind_keywords];
    [tauto |].
  intros Hin bound Hk.
  destruct (is_param params k0) eqn:Ep; cbn [negb]; [| reflexivity].
  destruct (lookup k0 bound) eqn:El; [reflexivity |].
  destruct Hin as [-> | Hin].
  - destruct Hk as [Hk | Hk]; [congruence | contradiction].
  - apply IH; [exact Hin |].
    destruct Hk as [Hk | Hk]; [now left | right].
    rewrite lookup_app. now destruct (lookup k bound).
Qed.

Lemma get_dims_param_cases (k : string) :
  is_param get_dims_params k = true ->
  k = "bounds"%string \/ k = "res"%string
  \/ k = "padding"%string \/ k = "min_len"%string.
Proof.
  unfold is_param, get_dims_params. cbn [existsb].
  rewrite !orb_true_iff, !String.eqb_eq.
  intros [H | [H | [H | [H | H]]]]; auto; discriminate.
Qed.

(** X5.  [split_geom] hands [**kwargs] to [get_dims], so the only keywords
    it accepts beyond its own parameters are [padding] and [min_len]: any
    other keyword makes the call raise [TypeError], whatever the geometry. *)
Theorem split_geom_foreign_keyword (geometry : Geom) (crs : string) (res : Q)
    (max_len b : Z) (kwargs : env) (k : string) :
  In k (map fst kwargs) ->
  k <> "padding"%string -> k <> "min_len"%string ->
  split_geom geometry crs res max_len b kwargs = Raise TypeError.
Proof.
  intros Hin Hpad Hmin. unfold split_geom, tiler_lines, tiler_dims.
  destruct (existsb _ _) eqn:Eg; [reflexivity |].
  unfold budget. rewrite get_dims_unfold. unfold get_dims_unfolded, measure.
  unfold bind_call. cbn [List.length Nat.ltb Nat.leb get_dims_params combine].
  rewrite (bind_keywords_foreign _ k kwargs Hin); [reflexivity |].
  destruct (is_param get_dims_params k) eqn:Ep; [right | now left].
  apply get_dims_param_cases in Ep.
  destruct Ep as [-> | [-> | [-> | ->]]]; try contradiction.
  - cbn. discriminate.
  - exfalso. rewrite <- not_true_iff_false in Eg. apply Eg.
    apply existsb_exists. exists "res"%string. now split.
Qed.


(** ** Polygons that need no cut *)

(** X6.  A polygon whose bounds measure between 256 and [max_len] pixels on
    both axes at 0.125 units per pixel is returned alone and unchanged, with
    the default keywords, for every [res] (zero and negative included),
    every buffer and every CRS: [res] is read only when a side is to be
    cut. *)
Theorem split_geom_within_limit (geometry : Geom) (crs : string) (res : Q)
    (max_len b : Z) (minx miny maxx maxy : Q) :
  geom_bounds geometry = (minx, miny, maxx, maxy) ->
  (256 <= py_int ((maxx - minx) / (1 # 8)) <= max_len)%Z ->
  (256 <= py_int ((maxy - miny) / (1 # 8)) <= max_len)%Z ->
  split_geom geometry crs res max_len b [] = Ok [(0%nat, geometry)].
Proof.
  intros Hb [Hw1 Hw2] [Hh1 Hh2].
  unfold split_geom, tiler_lines, tiler_dims, budget.
  cbn [map existsb]. rewrite Hb, get_dims_unfold. unfold get_dims_unfolded.
  rewrite measure_defaults, (measure_no_padding _ _ _ _ _ _ (eq_refl : 0 < 1 # 8)).
  cbn [bind m_width m_height m_min_len m_bounds].
  rewrite !Qltb_inject_Z.
  apply Z.ltb_ge in Hw1, Hh1. rewrite Hw1, Hh1. cbn [bind cut_lines].
  apply Z.ltb_ge in Hw2, Hh2. now rewrite Hw2, Hh2.
Qed.


(** ** The returned frame *)

Lemma length_new_gdf (geoms : list Geom) :
  List.length (new_gdf geoms) = List.length geoms.
Proof.
  unfold new_gdf. rewrite length_combine, length_seq. apply Nat.min_id.
Qed.

Lemma length_labels (gdf : GeoDataFrame) :
  List.length (labels gdf) = List.length gdf.
Proof. apply length_map. Qed.

Lemma length_multi_tile (geometry : Geom) (lines : list LineString) (b : Z) :
  List.length (multi_tile geometry lines b)
  = List.length
      (tiles_of (kept_regions geometry (candidate_regions geometry lines))).
Proof.
  unfold multi_tile, reset_index, geometries, buffer_all.
  rewrite length_new_gdf, !length_map.
  now rewrite <- (length_labels (absorb _ _)), labels_absorb, length_labels.
Qed.

(** X7.  Whatever [split_geom] returns is indexed 0, 1, 2, ... in row
    order, on the single-tile path and after the filters, the absorption of
    slivers and [reset_index] alike. *)
Theorem split_geom_index (geometry : Geom) (crs : string) (res : Q)
    (max_len b : Z) (kwargs : env) (gdf : GeoDataFrame) :
  split_geom geometry crs res max_len b kwargs = Ok gdf ->
  labels gdf = seq 0 (List.length gdf).
Proof.
  unfold split_geom.
  destruct (tiler_lines geometry res max_len kwargs) as [lines | e |];
    cbn [bind]; try discriminate.
  destruct lines as [| l lines]; intros [= <-].
  - reflexivity.
  - unfold multi_tile, reset_index.
    now rewrite labels_new_gdf, length_new_gdf.
Qed.

(** X8.  When cut lines are generated, the number of tiles returned is the
    number of reconstructed regions that pass the two filters with an area of
    at least 100: absorbing slivers and buffering neither add nor remove a
    tile, so there are never more tiles than reconstructed regions. *)
Theorem split_geom_tile_count (geometry : Geom) (crs : string) (res : Q)
    (max_len b : Z) (kwargs : env) (l : LineString) (lines : list LineString) :
  tiler_lines geometry res max_len kwargs = Ok (l :: lines) ->
  exists gdf,
    split_geom geometry crs res max_len b kwargs = Ok gdf
    /\ List.length gdf
       = List.length
           (tiles_of
              (kept_regions geometry (candidate_regions geometry (l :: lines))))
    /\ (List.length gdf
        <= List.length
             (polygonize
                (union_all
                   (map exterior (flat_map (split geometry) (l :: lines))))))%nat.
Proof.
  intros Hlines. unfold split_geom. rewrite Hlines. cbn [bind].
  eexists. split; [reflexivity |].
  rewrite length_multi_tile. split; [reflexivity |].
  unfold tiles_of, kept_regions, select, candidate_regions.
  rewrite <- (length_new_gdf (polygonize _)).
  eapply Nat.le_trans; [apply filter_length_le |].
  eapply Nat.le_trans; apply filter_length_le.
Qed.

(** When every region is below the tile size the frame of tiles is empty
    and stays so. *)
Lemma absorb_nil (slivers : GeoDataFrame) : absorb [] slivers = [].
Proof.
  unfold absorb. induction slivers as [| s slivers IH]; cbn [fold_left];
    [reflexivity | exact IH].
Qed.

Lemma tiles_of_all_small (gdf : GeoDataFrame) :
  Forall (fun row => area (snd row) < 100) gdf -> tiles_of gdf = [].
Proof.
  unfold tiles_of, select.
  induction 1 as [| row gdf Hrow _ IH]; cbn [filter]; [reflexivity |].
  destruct (Qle_bool 100 (area (snd row))) eqn:E; [| exact IH].
  apply Qle_bool_iff in E. now apply Qlt_not_le in Hrow.
Qed.

Lemma all_small_check (gdf : GeoDataFrame) :
  forallb (fun row => Qltb (area (snd row)) 100) gdf = true ->
  Forall (fun row => area (snd row) < 100) gdf.
Proof.
  intros H. apply Forall_forall. intros row Hin.
  rewrite forallb_forall in H. now apply Qltb_lt, H.
Qed.

(** X9.  When cut lines are generated and every region that passes the two
    filters is below 100 in area, all of them are slivers with no tile to be
    absorbed in, and [split_geom] returns an empty frame: the polygon is
    dropped altogether. *)
Theorem split_geom_all_slivers (geometry : Geom) (crs : string) (res : Q)
    (max_len b : Z) (kwargs : env) (l : LineString) (lines : list LineString) :
  tiler_lines geometry res max_len kwargs = Ok (l :: lines) ->
  Forall (fun row => area (snd row) < 100)
         (kept_regions geometry (candidate_regions geometry (l :: lines))) ->
  split_geom geometry crs res max_len b kwargs = Ok [].
Proof.
  intros Hlines Hsmall. unfold split_geom. rewrite Hlines. cbn [bind].
  unfold multi_tile. now rewrite (tiles_of_all_small _ Hsmall), absorb_nil.
Qed.

(** ** The order of absorption *)

(** X10.  A sliver is unioned into the first row of the frame, in row
    order, whose geometry touches it, whatever rows follow. *)
Theorem absorb_first_touching (pre post : GeoDataFrame) (l : nat) (g : Geom)
    (sliver : nat * Geom) :
  Forall (fun row => touches (snd row) (snd sliver) = false) pre ->
  touches g (snd sliver) = true ->
  absorb_sliver (pre ++ (l, g) :: post) sliver
  = loc_set (pre ++ (l, g) :: post) l (union g (snd sliver)).
Proof.
  intros Hpre Hg. unfold absorb_sliver, select.
  rewrite filter_app. cbn [filter snd]. rewrite Hg.
  replace (filter _ pre) with (@nil (nat * Geom)); [reflexivity |].
  symmetry. induction Hpre as [| row pre Hrow _ IH]; cbn [filter];
    [reflexivity |].
  now rewrite Hrow.
Qed.

(** ** Division by zero *)

(** X11.  When a side is to be cut, a resolution of zero or a [max_len] of
    zero makes [split_geom] raise [ZeroDivisionError]. *)
Theorem split_geom_zero_division (geometry : Geom) (crs : string) (res : Q)
    (max_len b : Z) (kwargs : env) (bounds : Bounds) (w h : Z) :
  tiler_dims geometry kwargs = Ok (bounds, w, h) ->
  (max_len < w)%Z \/ (max_len < h)%Z ->
  res == 0 \/ max_len = 0%Z ->
  split_geom geometry crs res max_len b kwargs = Raise ZeroDivisionError.
Proof.
  intros Hdims Hcut Hzero.
  assert (Hax : forall lo hi, axis_cuts lo hi res max_len = Raise ZeroDivisionError).
  { intros lo hi. unfold axis_cuts, py_div.
    destruct (Qeq_bool res 0) eqn:Er; [reflexivity |].
    destruct Hzero as [Hz | ->].
    - apply Qeq_bool_iff in Hz. congruence.
    - reflexivity. }
  unfold split_geom, tiler_lines. rewrite Hdims.
  destruct bounds as [[[minx miny] maxx] maxy]. cbn [bind cut_lines].
  rewrite !Hax.
  destruct (Z.ltb_spec max_len w); [reflexivity |].
  destruct (Z.ltb_spec max_len h); [reflexivity | lia].
Qed.

End TilerMore.

Lemma split_geom_foreign_keyword_witness :
  split_geom (Boxes.square 1000) "EPSG:25832" 1 4000 0
             [("min_len", VInt 1); ("crs_name", VNone)]%string
  = Raise TypeError.
Proof.
  apply (split_geom_foreign_keyword (shp := Boxes.shapely)) with (k := "crs_name"%string).
  - cbn. tauto.
  - discriminate.
  - discriminate.
Defined.

Lemma split_geom_within_limit_witness :
  split_geom (Boxes.square 100) "EPSG:25832" 0 4000 7 []
  = Ok [(0%nat, Boxes.square 100)].
Proof.
  apply (split_geom_within_limit (shp := Boxes.shapely)
           (Boxes.square 100) "EPSG:25832" 0 4000 7 0 0 100 100).
  - reflexivity.
  - vm_compute. split; discriminate.
  - vm_compute. split; discriminate.
Defined.

Lemma split_geom_index_witness :
  split_geom (Boxes.square 1000) "EPSG:25832" 1 400 0 []
    = Ok (multi_tile (Boxes.square 1000)
            [vline 0 1000 (1000 # 3); vline 0 1000 (2000 # 3);
             hline 0 1000 (1000 # 3); hline 0 1000 (2000 # 3)] 0)
  /\ labels (multi_tile (Boxes.square 1000)
               [vline 0 1000 (1000 # 3); vline 0 1000 (2000 # 3);
                hline 0 1000 (1000 # 3); hline 0 1000 (2000 # 3)] 0)
     = seq 0 9.
Proof.
  assert (H : split_geom (Boxes.square 1000) "EPSG:25832" 1 400 0 []
              = Ok (multi_tile (Boxes.square 1000)
                      [vline 0 1000 (1000 # 3); vline 0 1000 (2000 # 3);
                       hline 0 1000 (1000 # 3); hline 0 1000 (2000 # 3)] 0))
    by (vm_compute; reflexivity).
  split; [exact H |].
  exact (split_geom_index (shp := Boxes.shapely) _ _ _ _ _ _ _ H).
Defined.

Lemma split_geom_tile_count_witness :
  tiler_lines Boxes.annexed 1 600 []
    = Ok [vline 0 1000 (1005 # 2); hline 0 1005 (1000 # 2)]
  /\ exists gdf,
       split_geom Boxes.annexed "EPSG:25832" 1 600 0 [] = Ok gdf
       /\ List.length gdf
          = List.length
              (tiles_of
                 (kept_regions Boxes.annexed
                    (candidate_regions Boxes.annexed
                       [vline 0 1000 (1005 # 2); hline 0 1005 (1000 # 2)])))
       /\ (List.length gdf
           <= List.length
                (polygonize
                   (union_all
                      (map exterior
                         (flat_map (split Boxes.annexed)
                            [vline 0 1000 (1005 # 2);
                             hline 0 1005 (1000 # 2)])))))%nat.
Proof.
  assert (H : tiler_lines Boxes.annexed 1 600 []
              = Ok [vline 0 1000 (1005 # 2); hline 0 1005 (1000 # 2)])
    by (vm_compute; reflexivity).
  split; [exact H |].
  exact (split_geom_tile_count (shp := Boxes.shapely) Boxes.annexed
           "EPSG:25832" 1 600 0 [] _ _ H).
Defined.

(** A square of 32 units at [res=1], [max_len=8]: sixteen regions of area
    64, all of them slivers. *)
Lemma split_geom_all_slivers_witness :
  split_geom (Boxes.square 32) "EPSG:25832" 1 8 0 [] = Ok [].
Proof.
  eapply (split_geom_all_slivers (shp := Boxes.shapely) (Boxes.square 32)
            "EPSG:25832" 1 8 0 []).
  - vm_compute. reflexivity.
  - apply all_small_check. vm_compute. reflexivity.
Defined.

Lemma absorb_first_touching_witness :
  absorb_sliver (shp := Boxes.shapely)
    [(0%nat, [(0, 0, 1, 1)]); (1%nat, [(5, 0, 6, 1)]); (2%nat, [(6, 1, 7, 2)])]
    (9%nat, [(6, 0, 7, 1)])
  = loc_set (shp := Boxes.shapely)
      [(0%nat, [(0, 0, 1, 1)]); (1%nat, [(5, 0, 6, 1)]); (2%nat, [(6, 1, 7, 2)])]
      1%nat [(5, 0, 6, 1); (6, 0, 7, 1)].
Proof.
  apply (absorb_first_touching (shp := Boxes.shapely)
           [(0%nat, [(0, 0, 1, 1)])] [(2%nat, [(6, 1, 7, 2)])] 1%nat
           [(5, 0, 6, 1)] (9%nat, [(6, 0, 7, 1)])).
  - repeat constructor.
  - reflexivity.
Defined.

Lemma split_geom_zero_division_witness :
  tiler_dims (Boxes.square 1000) [] = Ok ((0, 0, 1000, 1000), 8000%Z, 8000%Z)
  /\ split_geom (Boxes.square 1000) "EPSG:25832" 0 400 0 []
     = Raise ZeroDivisionError.
Proof.
  assert (H : tiler_dims (Boxes.square 1000) []
              = Ok ((0, 0, 1000, 1000), 8000%Z, 8000%Z))
    by (vm_compute; reflexivity).
  split; [exact H |].
  apply (split_geom_zero_division (shp := Boxes.shapely) (Boxes.square 1000)
           "EPSG:25832" 0 400 0 [] _ _ _ H).
  - left. lia.
  - left. reflexivity.
Defined.

(** * Properties of the layer names *)

Lemma get_layer_name_spring (year : year_arg) (res : Q) (bands : string) :
  get_layer_name "dk" year res "spring" bands
  = Done ("geodanmark_" ++ str_year year
          ++ layer_suffix (Qeq_bool res (1 # 10)) (String.eqb bands "cir"))%string.
Proof.
  unfold get_layer_name, layer_suffix. cbn.
  now destruct (Qeq_bool res (1 # 10)), (String.eqb bands "cir").
Qed.

(** X13.  [get_layer_name] answers for the service ['dk'] and the season
    ['spring'] only.  The alias ['denmark'] passes the [match] but is no key
    of the table of layers, and a season other than ['spring'] is no key of
    the table of the service: both raise [KeyError].  Any other service
    raises [ValueError]. *)
Theorem get_layer_name_cases (service : string) (year : year_arg) (res : Q)
    (season bands : string) :
  (service = "dk"%string -> season = "spring"%string ->
   get_layer_name service year res season bands
   = Done ("geodanmark_" ++ str_year year
           ++ layer_suffix (Qeq_bool res (1 # 10)) (String.eqb bands "cir"))%string)
  /\ (service = "dk"%string -> season <> "spring"%string ->
      get_layer_name service year res season bands = Fail KeyError)
  /\ (service = "denmark"%string ->
      get_layer_name service year res season bands = Fail KeyError)
  /\ (service <> "dk"%string -> service <> "denmark"%string ->
      get_layer_name service year res season bands = Fail (Builtin ValueError)).
Proof.
  unfold get_layer_name. repeat split.
  - intros -> ->. fold (get_layer_name "dk" year res "spring" bands).
    apply get_layer_name_spring.
  - intros -> Hs. rewrite String.eqb_refl. cbn [orb getitem].
    rewrite String.eqb_refl. cbn [getitem].
    destruct (String.eqb_spec "spring" season) as [E |]; [| reflexivity].
    now elim Hs.
  - intros ->. reflexivity.
  - intros Hdk Hden.
    destruct (String.eqb_spec service "dk"); [contradiction |].
    destruct (String.eqb_spec service "denmark"); [contradiction |].
    reflexivity.
Qed.

Lemma get_layer_name_cases_witness :
  get_layer_name "dk" (YearInt 2021) (1 # 10) "spring" "cir"
    = Done "geodanmark_2021_10cm_cir"%string
  /\ get_layer_name "dk" (YearInt 2021) (1 # 8) "autumn" "rgb" = Fail KeyError
  /\ get_layer_name "denmark" (YearStr "2021") (1 # 8) "spring" "rgb"
     = Fail KeyError
  /\ get_layer_name "se" (YearStr "2021") (1 # 8) "spring" "rgb"
     = Fail (Builtin ValueError).
Proof.
  destruct (get_layer_name_cases "dk" (YearInt 2021) (1 # 10) "spring" "cir")
    as (H1 & _).
  destruct (get_layer_name_cases "dk" (YearInt 2021) (1 # 8) "autumn" "rgb")
    as (_ & H2 & _).
  destruct (get_layer_name_cases "denmark" (YearStr "2021") (1 # 8) "spring" "rgb")
    as (_ & _ & H3 & _).
  destruct (get_layer_name_cases "se" (YearStr "2021") (1 # 8) "spring" "rgb")
    as (_ & _ & _ & H4).
  split; [exact (H1 eq_refl eq_refl) |].
  split; [apply (H2 eq_refl); discriminate |].
  split; [exact (H3 eq_refl) |].
  apply H4; discriminate.
Defined.

(** ** Names are told apart *)

Lemma list_ascii_of_append (a b : string) :
  list_ascii_of_string (a ++ b)
  = (list_ascii_of_string a ++ list_ascii_of_string b)%list.
Proof. induction a as [| c a IH]; cbn; [reflexivity | now rewrite IH]. Qed.

Lemma list_ascii_inj (a b : string) :
  list_ascii_of_string a = list_ascii_of_string b -> a = b.
Proof.
  intros H.
  now rewrite <- (string_of_list_ascii_of_string a),
              <- (string_of_list_ascii_of_string b), H.
Qed.

(** A name determines its year and its suffix. *)
Lemma year_suffix_inj (y1 y2 : string) (t1 c1 t2 c2 : bool) :
  (y1 ++ layer_suffix t1 c1 = y2 ++ layer_suffix t2 c2)%string ->
  y1 = y2 /\ t1 = t2 /\ c1 = c2.
Proof.
  intros H. apply (f_equal list_ascii_of_string) in H.
  rewrite !list_ascii_of_append in H.
  apply (f_equal (@rev ascii)) in H. rewrite !rev_app_distr in H.
  assert (Hrev : forall a b : string,
            rev (list_ascii_of_string a) = rev (list_ascii_of_string b) -> a = b).
  { intros a b E. apply list_ascii_inj.
    now rewrite <- (rev_involutive (list_ascii_of_string a)), E, rev_involutive. }
  destruct t1, c1, t2, c2; cbn in H; try discriminate H;
    (repeat split; apply Hrev; now repeat injection H as H).
Qed.

Lemma str_int_inj (z1 z2 : Z) :
  NilZero.string_of_int (Z.to_int z1) = NilZero.string_of_int (Z.to_int z2) ->
  z1 = z2.
Proof.
  intros H. apply DecimalZ.to_int_inj.
  assert (Hnn : forall z, Z.to_int z <> Decimal.Pos Decimal.Nil
                          /\ Z.to_int z <> Decimal.Neg Decimal.Nil).
  { intros [| p | p]; cbn; split; try discriminate;
      intros [= E]; revert E; apply DecimalPos.Unsigned.to_uint_nonnil. }
  assert (E : Some (Z.to_int z1) = Some (Z.to_int z2)).
  { rewrite <- (NilZero.isi (Z.to_int z1)) by apply Hnn.
    rewrite <- (NilZero.isi (Z.to_int z2)) by apply Hnn.
    now rewrite H. }
  now injection E.
Qed.

(** X14.  Two calls of [get_layer_name] that return the same name were
    asked for the same year (as text, and as a number when both years are
    integers), the same class of resolution (0.1 or not) and the same class
    of bands (['cir'] or not): no two layers share a name. *)
Theorem layer_name_injective (y1 y2 : year_arg) (r1 r2 : Q) (b1 b2 name : string) :
  get_layer_name "dk" y1 r1 "spring" b1 = Done name ->
  get_layer_name "dk" y2 r2 "spring" b2 = Done name ->
  str_year y1 = str_year y2
  /\ Qeq_bool r1 (1 # 10) = Qeq_bool r2 (1 # 10)
  /\ String.eqb b1 "cir" = String.eqb b2 "cir"
  /\ (forall z1 z2, y1 = YearInt z1 -> y2 = YearInt z2 -> z1 = z2).
Proof.
  rewrite !get_layer_name_spring. intros [= <-] [= H].
  apply year_suffix_inj in H.
  destruct H as (Hy & Hr & Hb).
  repeat split; try congruence.
  intros z1 z2 -> ->. cbn [str_year] in Hy. symmetry. now apply str_int_inj.
Qed.

Lemma layer_name_injective_witness :
  get_layer_name "dk" (YearInt 2021) (1 # 10) "spring" "cir"
    = Done "geodanmark_2021_10cm_cir"%string
  /\ get_layer_name "dk" (YearStr "2021") (2 # 20) "spring" "cir"
     = Done "geodanmark_2021_10cm_cir"%string
  /\ str_year (YearInt 2021) = str_year (YearStr "2021").
Proof.
  split; [reflexivity |]. split; [reflexivity |].
  exact (proj1 (layer_name_injective (YearInt 2021) (YearStr "2021")
                  (1 # 10) (2 # 20) "cir" "cir" "geodanmark_2021_10cm_cir"
                  eq_refl eq_refl)).
Defined.

(** * Properties of the grids *)

(** X15.  [query_grid] has no case for a grid it does not know: for an
    ASCII name that is, in lower case, none of ['dk1'], ['dk1km'], ['dk10'],
    ['dk10km'], the frame is never assigned and the call raises
    [UnboundLocalError], with or without an index, whatever the archives
    hold. *)
Theorem query_grid_unknown (Label Row : Type) (label_eqb : Label -> Label -> bool)
    (read_1km read_10km : result (list (Label * Row)))
    (grid : string) (index : option Label) :
  ascii_only grid = true ->
  lower grid <> "dk1"%string -> lower grid <> "dk1km"%string ->
  lower grid <> "dk10"%string -> lower grid <> "dk10km"%string ->
  query_grid Label Row label_eqb read_1km read_10km grid index
  = Fail (Builtin UnboundLocalError).
Proof.
  intros _ H1 H2 H3 H4. unfold query_grid.
  destruct (String.eqb_spec (lower grid) "dk1"); [contradiction |].
  destruct (String.eqb_spec (lower grid) "dk1km"); [contradiction |].
  destruct (String.eqb_spec (lower grid) "dk10"); [contradiction |].
  destruct (String.eqb_spec (lower grid) "dk10km"); [contradiction |].
  reflexivity.
Qed.

Lemma query_grid_unknown_witness :
  query_grid string nat String.eqb
    (Done [("1km_6100_700"%string, 1%nat)]) (Done [("10km_610_70"%string, 2%nat)])
    "DK100" (Some "1km_6100_700"%string)
  = Fail (Builtin UnboundLocalError).
Proof.
  apply query_grid_unknown; [reflexivity | discriminate ..].
Defined.

(** * Properties of the download *)

Section DownloadProperties.

Context {shp : Shapely}.
Variable Data : Type.
Variable server : nat -> Bounds * Z * Z -> response Data.

(** ** Counting events *)

Lemma requests_made_app (a b : list (event Data)) :
  requests_made (a ++ b) = (requests_made a + requests_made b)%nat.
Proof. unfold requests_made. now rewrite filter_app, length_app. Qed.

Lemma sleeps_made_app (a b : list (event Data)) :
  sleeps_made (a ++ b) = (sleeps_made a + sleeps_made b)%nat.
Proof. unfold sleeps_made. now rewrite filter_app, length_app. Qed.

Lemma writes_made_app (a b : list (event Data)) :
  writes_made (a ++ b) = (writes_made a + writes_made b)%nat.
Proof. unfold writes_made. now rewrite filter_app, length_app. Qed.

Lemma written_bounds_app (a b : list (event Data)) :
  written_bounds (a ++ b) = written_bounds a ++ written_bounds b.
Proof.
  induction a as [| ev a IH]; cbn [app written_bounds]; [reflexivity |].
  destruct ev; cbn [app]; now rewrite ?IH.
Qed.

(** ** One request *)

Lemma send_request_known (backend : string) (dims : Bounds * Z * Z)
    (trace : list (event Data)) :
  known_backend backend = true ->
  send_request server backend dims trace
  = (match server (requests_made trace) dims with
     | Image data => Done data
     | HttpFailure status => Fail (HTTPError status)
     | OtherFailure name => Fail (OtherError name)
     end, trace ++ [Requested dims]).
Proof.
  intros Hk. unfold send_request. rewrite Hk.
  now destruct (server (requests_made trace) dims).
Qed.

Lemma err_code_known (backend : string) (status : Z) :
  known_backend backend = true -> err_code backend status = Done status.
Proof.
  unfold known_backend, err_code. intros Hk.
  destruct (String.eqb backend "owslib"); [reflexivity |].
  destruct (String.eqb backend "urllib"); [reflexivity | discriminate].
Qed.

(** ** The retry loop *)

Lemma attempts_bounded (tries : Z) (backend : string) (dims : Bounds * Z * Z) :
  forall (left : nat) (i : Z) (trace : list (event Data)) r trace',
    (Z.of_nat left + i = tries)%Z ->
    attempts server left i tries backend dims trace = (r, trace') ->
    exists evs,
      trace' = trace ++ evs
      /\ forallb is_retry_event evs = true
      /\ (requests_made evs <= left)%nat
      /\ (sleeps_made evs <= requests_made evs - 1)%nat
      /\ (known_backend backend = true -> (1 <= left)%nat ->
          (1 <= requests_made evs)%nat).
Proof.
  induction left as [| left IH]; intros i trace r trace' Hinv H;
    cbn [attempts] in H.
  - injection H as <- <-. exists []. rewrite app_nil_r.
    repeat split; cbn; lia.
  - unfold send_request in H.
    destruct (known_backend backend) eqn:Hk.
    + assert (Hone : exists evs,
                trace ++ [Requested dims] = trace ++ evs
                /\ forallb is_retry_event evs = true
                /\ (requests_made evs <= S left)%nat
                /\ (sleeps_made evs <= requests_made evs - 1)%nat
                /\ (true = true -> (1 <= S left)%nat ->
                    (1 <= requests_made evs)%nat)).
      { exists [Requested dims]. repeat split; cbn; lia. }
      destruct (server (requests_made trace) dims) as [data | status | name].
      * injection H as <- <-. exact Hone.
      * rewrite (err_code_known _ _ Hk) in H.
        destruct ((status =? 504) && (i <? tries - 1))%Z eqn:Eb.
        -- apply IH in H; [| lia].
           destruct H as (evs & -> & Hev & Hreq & Hsl & Hpos).
           exists (Requested dims :: Slept :: evs).
           rewrite <- !app_assoc. cbn [app].
           apply andb_true_iff in Eb. destruct Eb as [_ Ei].
           apply Z.ltb_lt in Ei. specialize (Hpos eq_refl ltac:(lia)).
           repeat split; try assumption.
           ++ unfold requests_made in *. cbn. lia.
           ++ unfold requests_made, sleeps_made in *. cbn. lia.
           ++ intros _ _. unfold requests_made. cbn. lia.
        -- apply IH in H; [| lia].
           destruct H as (evs & -> & Hev & Hreq & Hsl & Hpos).
           exists (Requested dims :: evs).
           rewrite <- !app_assoc. cbn [app].
           repeat split; try assumption.
           ++ unfold requests_made in *. cbn. lia.
           ++ unfold requests_made, sleeps_made in *. cbn. lia.
           ++ intros _ _. unfold requests_made. cbn. lia.
      * injection H as <- <-. exact Hone.
    + injection H as <- <-. exists []. rewrite app_nil_r.
      repeat split; cbn; try lia; discriminate.
Qed.


(** A run of HTTP failures, of any status, is a run of turns of the loop. *)
Lemma attempts_http_run (tries : Z) (backend : string) (dims : Bounds * Z * Z) :
  known_backend backend = true ->
  forall (statuses : list Z) (left : nat) (i : Z) (trace : list (event Data)),
    (List.length statuses <= left)%nat ->
    (forall j, (j < List.length statuses)%nat ->
       server (requests_made trace + j) dims = HttpFailure (nth j statuses 0%Z)) ->
    exists trace1,
      attempts server left i tries backend dims trace
      = attempts server (left - List.length statuses)
          (i + Z.of_nat (List.length statuses)) tries backend dims trace1
      /\ requests_made trace1 = (requests_made trace + List.length statuses)%nat
      /\ sleeps_made trace1 = (sleeps_made trace + sleeps_due i tries statuses)%nat
      /\ writes_made trace1 = writes_made trace.
Proof.
  intros Hk. induction statuses as [| s rest IH]; intros left i trace Hlen Hsrv.
  - exists trace. cbn [List.length sleeps_due Z.of_nat].
    rewrite Nat.sub_0_r, Z.add_0_r, !Nat.add_0_r. auto.
  - cbn [List.length] in Hlen. destruct left as [| left]; [lia |].
    cbn [attempts]. rewrite (send_request_known _ _ _ Hk).
    pose proof (Hsrv 0%nat ltac:(cbn; lia)) as H0.
    rewrite Nat.add_0_r in H0. cbn [nth] in H0. rewrite H0.
    rewrite (err_code_known _ _ Hk).
    set (b := ((s =? 504) && (i <? tries - 1))%Z).
    set (trace2 := if b then (trace ++ [Requested dims]) ++ [Slept]
                   else trace ++ [Requested dims]).
    assert (Hreq : requests_made trace2 = S (requests_made trace)).
    { unfold trace2. destruct b; rewrite !requests_made_app; cbn; lia. }
    assert (Hsl : sleeps_made trace2
                  = (sleeps_made trace + if b then 1 else 0)%nat).
    { unfold trace2. destruct b; rewrite !sleeps_made_app; cbn; lia. }
    assert (Hwr : writes_made trace2 = writes_made trace).
    { unfold trace2. destruct b; rewrite !writes_made_app; cbn; lia. }
    destruct (IH left (i + 1)%Z trace2 ltac:(lia)) as (trace1 & E & Hr1 & Hs1 & Hw1).
    { intros j Hj. rewrite Hreq.
      replace (S (requests_made trace) + j)%nat
        with (requests_made trace + S j)%nat by lia.
      apply (Hsrv (S j)). cbn [List.length]. lia. }
    exists trace1. cbn [List.length sleeps_due Nat.sub].
    replace (i + Z.of_nat (S (List.length rest)))%Z
      with (i + 1 + Z.of_nat (List.length rest))%Z by lia.
    fold b. rewrite <- E. unfold trace2.
    repeat split; [now destruct b | lia .. ].
Qed.

Lemma sleeps_due_all (tries : Z) (statuses : list Z) :
  forall i, (i + Z.of_nat (List.length statuses) <= tries - 1)%Z ->
    sleeps_due i tries statuses = count_occ Z.eq_dec statuses 504%Z.
Proof.
  induction statuses as [| s rest IH]; intros i Hi; cbn [sleeps_due count_occ];
    [reflexivity |].
  cbn [List.length] in Hi. rewrite (IH (i + 1)%Z) by lia.
  destruct (Z.ltb_spec i (tries - 1)); [| lia]. rewrite andb_true_r.
  destruct (Z.eqb_spec s 504), (Z.eq_dec s 504); try contradiction; reflexivity.
Qed.

Lemma sleeps_due_last (tries : Z) (statuses : list Z) :
  forall i, (i + Z.of_nat (List.length statuses) = tries)%Z ->
    sleeps_due i tries statuses
    = count_occ Z.eq_dec (removelast statuses) 504%Z.
Proof.
  induction statuses as [| s rest IH]; intros i Hi; [reflexivity |].
  cbn [List.length] in Hi. destruct rest as [| s' rest].
  - cbn. destruct (Z.ltb_spec i (tries - 1)); [cbn in Hi; lia |].
    now rewrite andb_false_r.
  - change (removelast (s :: s' :: rest)) with (s :: removelast (s' :: rest)).
    cbn [sleeps_due count_occ]. rewrite <- (IH (i + 1)%Z) by lia.
    cbn [List.length] in Hi.
    destruct (Z.ltb_spec i (tries - 1)); [| lia]. rewrite andb_true_r.
    destruct (Z.eqb_spec s 504), (Z.eq_dec s 504); try contradiction;
      reflexivity.
Qed.

(** X17.  With one of the two backends, HTTP failures are retried whatever
    their status, not only 504: when the server fails [k] requests in a row,
    [k] below [tries], and then sends an image, the loop returns that image
    after [k + 1] requests, having slept once for each 504 and written
    nothing; when the server then fails with another exception, that
    exception is raised at once. *)
Theorem fetch_after_http_failures (tries : Z) (backend : string)
    (dims : Bounds * Z * Z) (trace : list (event Data)) (statuses : list Z)
    (final : response Data) :
  known_backend backend = true ->
  (Z.of_nat (List.length statuses) < tries)%Z ->
  (forall j, (j < List.length statuses)%nat ->
     server (requests_made trace + j) dims = HttpFailure (nth j statuses 0%Z)) ->
  server (requests_made trace + List.length statuses) dims = final ->
  (forall status, final <> HttpFailure status) ->
  exists trace',
    fetch server tries backend dims trace
    = (match final with
       | Image data => Done data
       | HttpFailure status => Fail (HTTPError status)
       | OtherFailure name => Fail (OtherError name)
       end, trace')
    /\ requests_made trace'
       = (requests_made trace + List.length statuses + 1)%nat
    /\ sleeps_made trace'
       = (sleeps_made trace + count_occ Z.eq_dec statuses 504%Z)%nat
    /\ writes_made trace' = writes_made trace.
Proof.
  intros Hk Hlen Hsrv Hfinal Hnot. unfold fetch.
  destruct (attempts_http_run tries backend dims Hk statuses
              (Z.to_nat tries) 0%Z trace ltac:(lia) Hsrv)
    as (trace1 & E & Hr1 & Hs1 & Hw1).
  rewrite E. rewrite (sleeps_due_all tries statuses 0%Z) in Hs1 by lia.
  destruct (Z.to_nat tries - List.length statuses)%nat as [| left] eqn:El;
    [lia |].
  cbn [attempts]. rewrite (send_request_known _ _ _ Hk), Hr1, Hfinal.
  exists (trace1 ++ [Requested dims]).
  rewrite requests_made_app, sleeps_made_app, writes_made_app.
  destruct final as [data | status | name].
  - repeat split; cbn; lia.
  - now elim (Hnot status).
  - repeat split; cbn; lia.
Qed.

(** X18.  With one of the two backends, when the server fails all of the
    [tries] requests with HTTP errors, of whatever status, the loop raises
    [RuntimeError] after exactly [tries] requests (none when [tries] is zero
    or negative): the HTTP error itself never reaches the caller.  It has
    slept once for each 504 but the last. *)
Theorem fetch_gives_up (tries : Z) (backend : string) (dims : Bounds * Z * Z)
    (trace : list (event Data)) (statuses : list Z) :
  known_backend backend = true ->
  List.length statuses = Z.to_nat tries ->
  (forall j, (j < List.length statuses)%nat ->
     server (requests_made trace + j) dims = HttpFailure (nth j statuses 0%Z)) ->
  exists trace',
    fetch server tries backend dims trace = (Fail RuntimeError, trace')
    /\ requests_made trace' = (requests_made trace + Z.to_nat tries)%nat
    /\ sleeps_made trace'
       = (sleeps_made trace
          + count_occ Z.eq_dec (removelast statuses) 504%Z)%nat
    /\ writes_made trace' = writes_made trace.
Proof.
  intros Hk Hlen Hsrv. unfold fetch.
  destruct (attempts_http_run tries backend dims Hk statuses
              (Z.to_nat tries) 0%Z trace ltac:(lia) Hsrv)
    as (trace1 & E & Hr1 & Hs1 & Hw1).
  rewrite E, Hlen, Nat.sub_diag. cbn [attempts].
  exists trace1. rewrite Hr1, Hs1, Hw1, Hlen.
  repeat split.
  f_equal. destruct statuses as [| s rest]; [reflexivity |].
  apply sleeps_due_last. cbn [List.length] in *. lia.
Qed.

End DownloadProperties.


(** Two failures with status 500 and 504, then an image, with three tries. *)
Lemma fetch_after_http_failures_witness :
  exists trace',
    fetch (fun n _ => match n with
                      | 0%nat => HttpFailure 500
                      | 1%nat => HttpFailure 504
                      | _ => Image 7%nat
                      end)
          3 "urllib" ((0, 0, 1000, 1000), 1000%Z, 1000%Z) []
    = (Done 7%nat, trace')
    /\ requests_made trace' = 3%nat
    /\ sleeps_made trace' = 1%nat
    /\ writes_made trace' = 0%nat.
Proof.
  exact (fetch_after_http_failures nat
           (fun n _ => match n with
                       | 0%nat => HttpFailure 500
                       | 1%nat => HttpFailure 504
                       | _ => Image 7%nat
                       end)
           3 "urllib" ((0, 0, 1000, 1000), 1000%Z, 1000%Z) [] [500; 504]%Z
           (Image 7%nat) eq_refl eq_refl
           (fun j Hj => match j as j0 return
                          ((j0 < 2)%nat ->
                           match j0 with
                           | 0%nat => HttpFailure 500
                           | 1%nat => HttpFailure 504
                           | _ => Image 7%nat
                           end = HttpFailure (nth j0 [500; 504]%Z 0%Z))
                        with
                        | 0%nat => fun _ => eq_refl
                        | 1%nat => fun _ => eq_refl
                        | S (S _) => fun H => ltac:(lia)
                        end Hj)
           eq_refl ltac:(discriminate)).
Defined.

(** Three failures with status 404, 504 and 504, with three tries. *)
Lemma fetch_gives_up_witness :
  exists trace',
    fetch (fun n _ => match n with
                      | 0%nat => @HttpFailure nat 404
                      | _ => HttpFailure 504
                      end)
          3 "owslib" ((0, 0, 1000, 1000), 1000%Z, 1000%Z) []
    = (Fail RuntimeError, trace')
    /\ requests_made trace' = 3%nat
    /\ sleeps_made trace' = 1%nat
    /\ writes_made trace' = 0%nat.
Proof.
  apply (fetch_gives_up nat
           (fun n _ => match n with
                       | 0%nat => HttpFailure 404
                       | _ => HttpFailure 504
                       end)
           3 "owslib" ((0, 0, 1000, 1000), 1000%Z, 1000%Z) [] [404; 504; 504]%Z
           eq_refl eq_refl).
  intros [| [| [| j]]] Hj; try reflexivity. cbn in Hj. lia.
Defined.

(** * Properties of [get_image] *)

Section GetImageProperties.

Context {shp : Shapely}.
Variable Data : Type.
Variable server : nat -> Bounds * Z * Z -> response Data.

(** ** The two calls of [get_dims] *)

(** [get_dims(bounds, res, padding=padding)] leaves [min_len] at 256. *)
Lemma get_dims_padding_only (b : Bounds) (res : Q) (padding : pyval) :
  get_dims budget [bounds_val b; VFloat res] [("padding"%string, padding)]
  = resolve b res 256 padding.
Proof.
  unfold resolve, budget. rewrite !get_dims_unfold. reflexivity.
Qed.

(** [get_dims(bounds, res)] is [get_dims(bounds, res, padding=None)]. *)
Lemma get_dims_positional (b : Bounds) (res : Q) :
  get_dims budget [bounds_val b; VFloat res] [] = resolve b res 256 VNone.
Proof.
  unfold resolve, budget. rewrite !get_dims_unfold. reflexivity.
Qed.

Lemma resolve_none_bounds (b b' : Bounds) (res : Q) (min_len w h : Z) :
  resolve b res min_len VNone = Ok (b', w, h) -> b' = b.
Proof.
  unfold resolve, budget. rewrite get_dims_unfold. intros H.
  apply get_dims_unfolded_minimum in H.
  destruct H as (m & Hm & -> & _).
  destruct b as [[[minx miny] maxx] maxy]. cbn in Hm.
  rewrite !Qminus_0_eq, !Qplus_0_eq in Hm.
  repeat bind_inv Hm. now injection Hm as <-.
Qed.

(** A tile whose dimensions are resolved is requested and written at its
    own bounds. *)
Lemma tile_dims_bounds (res : Q) (g : Geom) (dims : Bounds * Z * Z) :
  tile_dims res g = Done dims -> fst (fst dims) = geom_bounds g.
Proof.
  unfold tile_dims. rewrite get_dims_positional.
  destruct (resolve _ _ _ _) as [[[b w] h] | e |] eqn:E; cbn [lift];
    try discriminate.
  intros [= <-]. cbn [fst]. now apply resolve_none_bounds in E.
Qed.

(** ** The events of a run *)

Lemma retry_events_inner (evs : list (event Data)) :
  forallb is_retry_event evs = true ->
  forallb is_inner_event evs = true /\ written_bounds evs = [].
Proof.
  induction evs as [| ev evs IH]; cbn [forallb written_bounds]; [auto |].
  intros H. apply andb_true_iff in H. destruct H as [Hev H].
  destruct (IH H) as [IH1 IH2].
  destruct ev; cbn in Hev; try discriminate; cbn; auto.
Qed.

Lemma fetch_events (tries : Z) (backend : string) (dims : Bounds * Z * Z)
    (trace trace' : list (event Data)) (r : result Data) :
  fetch server tries backend dims trace = (r, trace') ->
  exists evs,
    trace' = trace ++ evs
    /\ forallb is_retry_event evs = true
    /\ (requests_made evs <= Z.to_nat tries)%nat.
Proof.
  unfold fetch. intros H.
  destruct (Z.le_gt_cases 0 tries) as [Hpos | Hneg].
  - apply (attempts_bounded Data server tries backend dims) in H; [| lia].
    destruct H as (evs & H1 & H2 & H3 & _). now exists evs.
  - replace (Z.to_nat tries) with 0%nat in * by lia. cbn [attempts] in H.
    injection H as <- <-. exists []. rewrite app_nil_r.
    repeat split; cbn; lia.
Qed.

Lemma write_tiles_events (res : Q) (backend : string) (tries : Z) :
  forall (gdf : GeoDataFrame) (trace trace' : list (event Data)) r,
    write_tiles server res backend tries gdf trace = (r, trace') ->
    exists evs rest,
      trace' = trace ++ evs
      /\ forallb is_inner_event evs = true
      /\ (requests_made evs <= Z.to_nat tries * List.length gdf)%nat
      /\ tile_bounds gdf = written_bounds evs ++ rest
      /\ (r = Done tt -> rest = [])
      /\ (rest = [] -> r = Done tt).
Proof.
  induction gdf as [| [l g] gdf IH]; intros trace trace' r H;
    cbn [write_tiles] in H.
  - injection H as <- <-. exists [], []. rewrite app_nil_r.
    repeat split; cbn; lia.
  - assert (Hstop : forall evs t0,
              t0 = trace ++ evs ->
              forallb is_retry_event evs = true ->
              (requests_made evs <= Z.to_nat tries)%nat ->
              r <> Done tt ->
              exists evs' rest,
                t0 = trace ++ evs'
                /\ forallb is_inner_event evs' = true
                /\ (requests_made evs'
                    <= Z.to_nat tries * List.length ((l, g) :: gdf))%nat
                /\ tile_bounds ((l, g) :: gdf) = written_bounds evs' ++ rest
                /\ (r = Done tt -> rest = [])
                /\ (rest = [] -> r = Done tt)).
    { intros evs t0 -> Hev Hreq Hr.
      destruct (retry_events_inner evs Hev) as [Hin Hw].
      exists evs, (tile_bounds ((l, g) :: gdf)). rewrite Hw.
      repeat split; try assumption.
      - cbn [List.length]. lia.
      - intros E. contradiction.
      - discriminate. }
    destruct (tile_dims res g) as [dims | e |] eqn:Ed.
    + destruct (fetch server tries backend dims trace) as [r1 t1] eqn:Ef.
      destruct (fetch_events _ _ _ _ _ _ Ef) as (evs1 & -> & Hev1 & Hreq1).
      destruct r1 as [data | e |].
      * apply IH in H.
        destruct H as (evs2 & rest & -> & Hin2 & Hreq2 & Hb & Hdone & Hall).
        destruct (retry_events_inner evs1 Hev1) as [Hin1 Hw1].
        exists (evs1 ++ Written (fst (fst dims)) data :: evs2), rest.
        rewrite <- !app_assoc. cbn [app].
        repeat split; try assumption.
        -- rewrite forallb_app, Hin1. cbn. exact Hin2.
        -- rewrite requests_made_app. unfold requests_made in *.
           cbn [filter is_request List.length]. lia.
        -- rewrite written_bounds_app, Hw1. cbn [app written_bounds].
           unfold tile_bounds in *. cbn [map snd].
           now rewrite (tile_dims_bounds _ _ _ Ed), Hb.
      * injection H as <- <-.
        apply (Hstop evs1); [reflexivity | assumption .. | discriminate].
      * injection H as <- <-.
        apply (Hstop evs1); [reflexivity | assumption .. | discriminate].
    + injection H as <- <-.
      apply (Hstop []);
        [now rewrite app_nil_r | reflexivity | cbn; lia | discriminate].
    + injection H as <- <-.
      apply (Hstop []);
        [now rewrite app_nil_r | reflexivity | cbn; lia | discriminate].
Qed.

(** X19.  [get_image] touches the world only after [get_dims] and
    [split_geom] have returned.  Either it fails with the world as it was,
    or it has opened the output with the padded bounds and their pixel
    extent, and then whatever happens inside (requests, sleeps, writes, an
    exception) the output is closed last, and is opened and closed once. *)
Theorem get_image_opens_and_closes (geom : Geom) (crs : string) (res : Q)
    (max_len : Z) (padding : pyval) (backend : string) (tries : Z)
    (trace trace' : list (event Data)) (r : result unit) :
  get_image server geom crs res max_len padding backend tries trace = (r, trace') ->
  (trace' = trace /\ r <> Done tt)
  \/ exists bounds width height evs,
       resolve (geom_bounds geom) res 256 padding = Ok (bounds, width, height)
       /\ trace' = trace ++ Opened bounds width height :: evs ++ [Closed]
       /\ forallb is_inner_event evs = true.
Proof.
  unfold get_image. rewrite get_dims_padding_only.
  destruct (resolve _ _ _ _) as [[[b w] h] | e |]; cbn [lift];
    [| intros [= <- <-]; left; split; [reflexivity | discriminate] ..].
  destruct (split_geom geom crs res max_len 0 []) as [gdf | e |]; cbn [lift];
    [| intros [= <- <-]; left; split; [reflexivity | discriminate] ..].
  destruct (write_tiles _ _ _ _ _ _) as [r1 t1] eqn:Ew. intros [= <- <-].
  apply write_tiles_events in Ew.
  destruct Ew as (evs & rest & -> & Hin & _).
  right. exists b, w, h, evs. rewrite <- !app_assoc. now cbn [app].
Qed.


(** X21.  An area of interest less than 256 pixels wide or high at the
    resolution asked cannot be downloaded without padding: [get_image]
    raises the [TypeError] of [get_dims] before the output is opened or a
    request is sent. *)
Theorem get_image_small_area (geom : Geom) (crs : string) (res : Q)
    (max_len : Z) (backend : string) (tries : Z) (trace : list (event Data))
    (minx miny maxx maxy : Q) :
  geom_bounds geom = (minx, miny, maxx, maxy) ->
  0 < res ->
  (py_int ((maxx - minx) / res) < 256)%Z \/ (py_int ((maxy - miny) / res) < 256)%Z ->
  get_image server geom crs res max_len VNone backend tries trace
  = (Fail (Builtin TypeError), trace).
Proof.
  intros Hb Hres Hsmall. unfold get_image.
  rewrite get_dims_padding_only, Hb.
  destruct Hsmall as [Hw | Hh].
  - now rewrite (resolve_deficient_width_raises _ _ _ _ _ _ Hres Hw).
  - now rewrite (resolve_deficient_height_raises _ _ _ _ _ _ Hres Hh).
Qed.

(** X22.  With a backend other than ['owslib'] and ['urllib'], or with a
    number of tries of zero or less, [get_image] fails at the first tile
    without a request: [send_request] raises [UnboundLocalError] in the first
    case and the loop raises [RuntimeError] in the second.  The output has
    been opened by then and is left without a window written. *)
Theorem get_image_no_request (geom : Geom) (crs : string) (res : Q)
    (max_len : Z) (padding : pyval) (backend : string) (tries : Z)
    (trace : list (event Data)) (bounds : Bounds) (width height : Z)
    (l : nat) (g : Geom) (gdf : GeoDataFrame) (dims : Bounds * Z * Z) :
  resolve (geom_bounds geom) res 256 padding = Ok (bounds, width, height) ->
  split_geom geom crs res max_len 0 [] = Ok ((l, g) :: gdf) ->
  tile_dims res g = Done dims ->
  (known_backend backend = false -> (0 < tries)%Z ->
   get_image server geom crs res max_len padding backend tries trace
   = (Fail (Builtin UnboundLocalError),
      trace ++ [Opened bounds width height; Closed]))
  /\ ((tries <= 0)%Z ->
      get_image server geom crs res max_len padding backend tries trace
      = (Fail RuntimeError, trace ++ [Opened bounds width height; Closed])).
Proof.
  intros Hd Hs Ht. unfold get_image.
  rewrite get_dims_padding_only, Hd, Hs. cbn [lift write_tiles]. rewrite Ht.
  unfold fetch. split.
  - intros Hk Htries.
    destruct (Z.to_nat tries) as [| left] eqn:El; [lia |].
    cbn [attempts]. unfold send_request. rewrite Hk.
    now rewrite <- app_assoc.
  - intros Htries. replace (Z.to_nat tries) with 0%nat by lia.
    cbn [attempts]. now rewrite <- app_assoc.
Qed.

End GetImageProperties.

(** A square of 1000 units at [res=1]: one tile, fetched at the first
    request. *)
Lemma get_image_opens_and_closes_witness :
  get_image (fun _ _ => Image 7%nat) (Boxes.square 1000) "EPSG:25832" 1 4000
            VNone "owslib" 3 []
    = (Done tt,
       [Opened (0, 0, 1000, 1000) 1000 1000;
        Requested ((0, 0, 1000, 1000), 1000%Z, 1000%Z);
        Written (0, 0, 1000, 1000) 7%nat; Closed])
  /\ exists bounds width height evs,
       resolve (geom_bounds (Boxes.square 1000)) 1 256 VNone
         = Ok (bounds, width, height)
       /\ [Opened (0, 0, 1000, 1000) 1000 1000;
           Requested ((0, 0, 1000, 1000), 1000%Z, 1000%Z);
           Written (0, 0, 1000, 1000) 7%nat; Closed]
          = [] ++ Opened bounds width height :: evs ++ [Closed]
       /\ forallb is_inner_event evs = true.
Proof.
  assert (H : get_image (fun _ _ => Image 7%nat) (Boxes.square 1000)
                "EPSG:25832" 1 4000 VNone "owslib" 3 []
              = (Done tt,
                 [Opened (0, 0, 1000, 1000) 1000 1000;
                  Requested ((0, 0, 1000, 1000), 1000%Z, 1000%Z);
                  Written (0, 0, 1000, 1000) 7%nat; Closed]))
    by (vm_compute; reflexivity).
  split; [exact H |].
  destruct (get_image_opens_and_closes (shp := Boxes.shapely) nat _ _ _ _ _ _
              _ _ _ _ _ H) as [[E _] | Hopen].
  - discriminate E.
  - exact Hopen.
Defined.


Lemma get_image_small_area_witness :
  get_image (fun _ _ => Image 7%nat) (Boxes.square 100) "EPSG:25832" 1 4000
            VNone "owslib" 3 []
  = (Fail (Builtin TypeError), []).
Proof.
  apply (get_image_small_area (shp := Boxes.shapely) nat _ (Boxes.square 100)
           "EPSG:25832" 1 4000 "owslib" 3 [] 0 0 100 100).
  - reflexivity.
  - reflexivity.
  - left. vm_compute. reflexivity.
Defined.

Lemma get_image_no_request_witness :
  get_image (fun _ _ => Image 7%nat) (Boxes.square 1000) "EPSG:25832" 1 4000
            VNone "requests" 3 []
    = (Fail (Builtin UnboundLocalError),
       [Opened (0, 0, 1000, 1000) 1000 1000; Closed])
  /\ get_image (fun _ _ => Image 7%nat) (Boxes.square 1000) "EPSG:25832" 1 4000
               VNone "owslib" 0 []
     = (Fail RuntimeError, [Opened (0, 0, 1000, 1000) 1000 1000; Closed]).
Proof.
  destruct (get_image_no_request (shp := Boxes.shapely) nat
              (fun _ _ => Image 7%nat) (Boxes.square 1000) "EPSG:25832" 1 4000
              VNone "requests" 3 [] (0, 0, 1000, 1000) 1000 1000
              0%nat (Boxes.square 1000) []
              ((0, 0, 1000, 1000), 1000%Z, 1000%Z) eq_refl eq_refl eq_refl)
    as [H1 _].
  destruct (get_image_no_request (shp := Boxes.shapely) nat
              (fun _ _ => Image 7%nat) (Boxes.square 1000) "EPSG:25832" 1 4000
              VNone "owslib" 0 [] (0, 0, 1000, 1000) 1000 1000
              0%nat (Boxes.square 1000) []
              ((0, 0, 1000, 1000), 1000%Z, 1000%Z) eq_refl eq_refl eq_refl)
    as [_ H2].
  split; [apply H1; [reflexivity | lia] | apply H2; lia].
Defined.
